(** * TEDxPS/survey-form: submission pipeline and event binding

    A shallow embedding of
      - [src/server/mongodb.ts]   (dbConnect, the cached connection),
      - [src/server/gcpbucket.ts] (getBucket, the cached bucket handle),
      - [src/server/index.ts]     (checkDuplicateEmail, saveToMongoDB,
                                   handleSurveySubmission),
      - [src/app/components/TEDxSurvey.tsx] (the binding effect, its
                                   cleanup and the upload handler),
    followed by the properties of the specification stated over it.

    Asynchronous functions are modelled in direct style: an [await] is a
    sequencing point, a rejected promise is a thrown error.  Calls are
    not interleaved. *)

From stdpp Require Import base option list strings gmap.
From Stdlib Require Import ZArith Lia.

Local Open Scope string_scope.
Local Open Scope list_scope.

(** ** JavaScript values *)

(** The values that flow through the code: answers of a payload, handler
    props, the callback slot of an upload event.  [VNum] holds the
    integer-valued numbers; [VObj] and [VFun] are references, compared by
    identity. *)
Inductive JsVal : Type :=
  | VUndefined
  | VNull
  | VBool (b : bool)
  | VNum (n : Z)
  | VStr (s : string)
  | VFun (f : nat)
  | VObj (o : nat).

Global Instance JsVal_eq_dec : EqDecision JsVal.
Proof. solve_decision. Defined.

(** ToBoolean. *)
Definition truthy (v : JsVal) : bool :=
  match v with
  | VUndefined | VNull => false
  | VBool b => b
  | VNum n => negb (n =? 0)%Z
  | VStr s => negb (String.eqb s "")
  | VFun _ | VObj _ => true
  end.

(** [a || b] *)
Definition js_or (a b : JsVal) : JsVal := if truthy a then a else b.

(** [typeof v === "function"] *)
Definition is_function (v : JsVal) : bool :=
  match v with VFun _ => true | _ => false end.

(** A plain object: its own enumerable properties in enumeration order.
    Keys are distinct in a JavaScript object; a lookup takes the first
    entry of a key. *)
Definition JsObject : Type := list (string * JsVal).

Fixpoint get_entry (o : JsObject) (k : string) : option JsVal :=
  match o with
  | [] => None
  | (k', v) :: o' => if String.eqb k' k then Some v else get_entry o' k
  end.

(** [o.k], [o[k]]: a missing property reads as [undefined]. *)
Definition prop (o : JsObject) (k : string) : JsVal :=
  default VUndefined (get_entry o k).

(** [Object.values(o)] *)
Definition Object_values (o : JsObject) : list JsVal := o.*2.

(** [Object.entries(o)] *)
Definition Object_entries (o : JsObject) : list (string * JsVal) := o.

(** An optional string parameter or environment variable used as a
    condition: [undefined] and the empty string are falsy. *)
Definition truthy_str (s : option string) : bool :=
  match s with
  | Some s => negb (String.eqb s "")
  | None => false
  end.

Definition str_or (a b : option string) : option string :=
  if truthy_str a then a else b.

(** An optional boolean option used as a condition. *)
Definition truthy_flag (b : option bool) : bool := default false b.

(** ** Errors *)

Inductive Collaborator : Type := Mongoose | DocumentStore | Sheets | Network.

Global Instance Collaborator_eq_dec : EqDecision Collaborator.
Proof. solve_decision. Defined.

(** [Error message] is [new Error(message)]; [ErrorAbout prefix v] is
    [new Error(`${prefix}${v}`)], the interpolated value kept as it is;
    [TypeError] is the engine's error for calling a value that is not a
    function, [SyntaxError] the one of parsing a body that is not JSON;
    [Rejection c] is a failure raised by a collaborator. *)
Inductive JsError : Type :=
  | Error (message : string)
  | ErrorAbout (prefix : string) (v : JsVal)
  | TypeError
  | SyntaxError
  | Rejection (c : Collaborator).

Global Instance JsError_eq_dec : EqDecision JsError.
Proof. solve_decision. Defined.

Inductive Result (A : Type) : Type :=
  | Ok (a : A)
  | Throw (e : JsError).
Arguments Ok {A} a.
Arguments Throw {A} e.

(** ** Server-side process state *)

(** The mongoose instance once connected; [conn_uri] is the connection
    string it was connected with. *)
Record Connection : Type := { conn_uri : string }.

(** A settled promise of a connection. *)
Inductive Promise : Type :=
  | Fulfilled (c : Connection)
  | Rejected (e : JsError).

(** [global.mongoose = { conn, promise }] *)
Record Cached : Type := { conn : option Connection; promise : option Promise }.

(** ISurveyResponse with the identifier the driver assigns. *)
Record SurveyResponse : Type := {
  _id : nat;
  surveyId : option string;
  email : JsVal;
  data : JsObject;
  createdAt : Z
}.

(** The arguments of one call of appendToGoogleSheet. *)
Record AppendRequest : Type := {
  req_spreadsheetId : string;
  req_range : string;
  req_apiKey : string;
  req_values : list (list JsVal);
  req_accessToken : option string
}.

(** What a successful append returns. *)
Record AppendResult : Type := { appended : AppendRequest }.

Record World : Type := {
  cached : Cached;
  connect_log : list string;
  collection : list SurveyResponse;
  next_oid : nat;
  sheet_log : list AppendRequest;
  sheet_rows : list (list JsVal)
}.

(** What the process does not control: the environment variable read at
    module load, the clock, and whether each collaborator call succeeds. *)
Record Env : Type := {
  MONGODB_URI : option string;
  now : Z;
  connect_ok : string → bool;
  count_ok : bool;
  save_ok : SurveyResponse → bool;
  append_ok : AppendRequest → bool
}.

(** ** State and exception monad of the server code *)

Definition M (A : Type) : Type := World → Result A * World.

Global Instance M_ret : MRet M := λ A a w, (Ok a, w).
Global Instance M_bind : MBind M := λ A B f m w,
  match m w with
  | (Ok a, w') => f a w'
  | (Throw e, w') => (Throw e, w')
  end.

Definition throw {A} (e : JsError) : M A := λ w, (Throw e, w).
Definition gets {A} (f : World → A) : M A := λ w, (Ok (f w), w).
Definition modify (f : World → World) : M unit := λ w, (Ok tt, f w).

(** [try { body } catch (e) { handler e }] *)
Definition try_catch {A} (body : M A) (handler : JsError → M A) : M A := λ w,
  match body w with
  | (Ok a, w') => (Ok a, w')
  | (Throw e, w') => handler e w'
  end.

Definition set_cached (c : Cached) (w : World) : World :=
  {| cached := c; connect_log := connect_log w; collection := collection w;
     next_oid := next_oid w; sheet_log := sheet_log w;
     sheet_rows := sheet_rows w |}.

Definition set_conn (c : option Connection) (w : World) : World :=
  set_cached {| conn := c; promise := promise (cached w) |} w.

Definition set_promise (p : option Promise) (w : World) : World :=
  set_cached {| conn := conn (cached w); promise := p |} w.

Definition log_connect (uri : string) (w : World) : World :=
  {| cached := cached w; connect_log := connect_log w ++ [uri];
     collection := collection w; next_oid := next_oid w;
     sheet_log := sheet_log w; sheet_rows := sheet_rows w |}.

(** ** mongodb.ts *)

Module Mongodb.
Section WithEnv.
Variable env : Env.

Definition no_uri_message : string :=
    "Please define the MONGODB_URI environment variable inside .env or pass it to dbConnect()".

  (** [mongoose.connect(connectionString, opts).then(...)]: one connection
      attempt, settled by the environment. *)
Definition mongoose_connect (connectionString : string) : M Promise :=
    _ ← modify (log_connect connectionString);
    mret (if connect_ok env connectionString
          then Fulfilled {| conn_uri := connectionString |}
          else Rejected (Rejection Mongoose)).

  (** [await p] *)
Definition await (p : Promise) : M Connection :=
    match p with
    | Fulfilled c => mret c
    | Rejected e => throw e
    end.

Definition dbConnect (uri : option string) : M Connection :=
    let connectionString := str_or uri (MONGODB_URI env) in
    if negb (truthy_str connectionString)
    then throw (Error no_uri_message)
    else
      c ← gets (λ w, conn (cached w));
      match c with
      | Some c => mret c
      | None =>
          p ← gets (λ w, promise (cached w));
          p ← match p with
              | Some p => mret p
              | None =>
                  p ← mongoose_connect (default "" connectionString);
                  _ ← modify (set_promise (Some p));
                  mret p
              end;
          try_catch
            (c ← await p;
             _ ← modify (set_conn (Some c));
             mret c)
            (λ e, _ ← modify (set_promise None); throw e)
      end.

End WithEnv.
End Mongodb.

(** ** gcpbucket.ts *)

Module GcpBucket.

  (** [new Storage({ credentials })]: a client handle; [storage_id]
      tells two constructed handles apart. *)
Record Storage : Type := { storage_id : nat; storage_credentials : JsVal }.

  (** [storage.bucket(bucketName)]: the handle carries the name the
      library gave it and the client it belongs to. *)
Record Bucket : Type := { name : string; bucket_storage : Storage }.

Record Config : Type := { credentials : JsVal; bucketName : string }.

  (** The two module-level variables, and the count of [new Storage]
      calls made so far. *)
Record State : Type := {
    cachedStorage : option Storage;
    cachedBucket : option Bucket;
    constructed : nat
  }.

Definition init : State :=
    {| cachedStorage := None; cachedBucket := None; constructed := 0 |}.

  (** What [storage.bucket(name)] of the client library does with a
      name: it throws, or it returns a handle under a name of its own
      making. *)
Record Library : Type := { bucket : string → Result string }.

  (** [cachedStorage && cachedBucket?.name === config.bucketName] *)
Definition cache_hit (config : Config) (s : State) : bool :=
    match cachedStorage s with
    | Some _ =>
        match name <$> cachedBucket s with
        | Some n => String.eqb n (bucketName config)
        | None => false
        end
    | None => false
    end.

Section WithLibrary.
Variable lib : Library.

  (** The assignments of lines 15 to 20.  The client is assigned before
      the library is asked for the handle: when that call throws, the
      new client stays and the handle cached before stays with it. *)
Definition construct (config : Config) (s : State) : Result Bucket * State :=
    let storage := {| storage_id := constructed s;
                      storage_credentials := credentials config |} in
    match bucket lib (bucketName config) with
    | Ok n =>
        let handle := {| name := n; bucket_storage := storage |} in
        (Ok handle, {| cachedStorage := Some storage; cachedBucket := Some handle;
                       constructed := S (constructed s) |})
    | Throw e =>
        (Throw e, {| cachedStorage := Some storage; cachedBucket := cachedBucket s;
                     constructed := S (constructed s) |})
    end.

Definition getBucket (config : Config) (s : State) : Result Bucket * State :=
    match cachedStorage s, cachedBucket s with
    | Some _, Some b =>
        if String.eqb (name b) (bucketName config) then (Ok b, s)
        else construct config s
    | _, _ => construct config s
    end.

  (** A sequence of calls, each by a caller of its own: what each call
      returned or threw, in order. *)
Fixpoint getBucket_seq (configs : list Config) (s : State)
    : list (Result Bucket) * State :=
    match configs with
    | [] => ([], s)
    | c :: cs =>
        let '(b, s1) := getBucket c s in
        let '(bs, s2) := getBucket_seq cs s1 in
        (b :: bs, s2)
    end.

End WithLibrary.


End GcpBucket.

(** ** index.ts *)

Module Server.

Record GoogleSheetOptions : Type := {
    spreadsheetId : string;
    range : string;
    apiKey : string;
    accessToken : option string
  }.

Record Options : Type := {
    mongo : option bool;
    mongoUri : option string;
    checkDuplicate : option bool;
    googleSheet : option GoogleSheetOptions;
    gcp : option GcpBucket.Config
  }.

  (** The object returned by handleSurveySubmission: each key is either
      absent or holds the value assigned to it. *)
Record Results : Type := {
    results_mongo : option SurveyResponse;
    results_sheets : option AppendResult
  }.

Definition insert_doc (d : SurveyResponse) (w : World) : World :=
    {| cached := cached w; connect_log := connect_log w;
       collection := collection w ++ [d]; next_oid := next_oid w;
       sheet_log := sheet_log w; sheet_rows := sheet_rows w |}.

Definition bump_oid (w : World) : World :=
    {| cached := cached w; connect_log := connect_log w;
       collection := collection w; next_oid := S (next_oid w);
       sheet_log := sheet_log w; sheet_rows := sheet_rows w |}.

Definition log_append (r : AppendRequest) (w : World) : World :=
    {| cached := cached w; connect_log := connect_log w;
       collection := collection w; next_oid := next_oid w;
       sheet_log := sheet_log w ++ [r]; sheet_rows := sheet_rows w |}.

Definition add_rows (rows : list (list JsVal)) (w : World) : World :=
    {| cached := cached w; connect_log := connect_log w;
       collection := collection w; next_oid := next_oid w;
       sheet_log := sheet_log w; sheet_rows := sheet_rows w ++ rows |}.

  (** The documents a filter [{ email }] matches.  The schema declares
      the email a string: on strings its cast changes nothing, and the
      comparison is that of the store. *)
Definition matching (e : JsVal) (docs : list SurveyResponse) : list SurveyResponse :=
    filter (λ d, email d = e) docs.

Section WithEnv.
Variable env : Env.

  (** [SurveyResponse.countDocuments({ email })] *)
Definition countDocuments (e : JsVal) : M nat :=
    if count_ok env
    then gets (λ w, length (matching e (collection w)))
    else throw (Rejection DocumentStore).

  (** [new SurveyResponse({ email, data })]: the driver assigns the
      identifier, and [createdAt] takes its default [Date.now].  The
      email is kept as given, which is what the schema's cast to String
      does to a string. *)
Definition new_SurveyResponse (e : JsVal) (d : JsObject) : M SurveyResponse :=
    i ← gets next_oid;
    _ ← modify bump_oid;
    mret {| _id := i; surveyId := None; email := e; data := d;
            createdAt := now env |}.

  (** [doc.save()] *)
Definition save (doc : SurveyResponse) : M SurveyResponse :=
    if save_ok env doc
    then _ ← modify (insert_doc doc); mret doc
    else throw (Rejection DocumentStore).

  (** Modelled from the spec: appendToGoogleSheet, of [./googleSheets],
      which is not among the sources.  The spreadsheet contract is
      [append(spreadsheetId, range, apiKey, values, accessToken?) -> result]:
      the request is issued, and when the service accepts it the rows of
      [values] are added after the rows already there. *)
Definition appendToGoogleSheet (sid rng key : string)
      (values : list (list JsVal)) (token : option string) : M AppendResult :=
    let req := {| req_spreadsheetId := sid; req_range := rng; req_apiKey := key;
                  req_values := values; req_accessToken := token |} in
    _ ← modify (log_append req);
    if append_ok env req
    then _ ← modify (add_rows values); mret {| appended := req |}
    else throw (Rejection Sheets).

Definition checkDuplicateEmail (email : JsVal) (mongoUri : option string) : M bool :=
    _ ← Mongodb.dbConnect env mongoUri;
    count ← countDocuments email;
    mret (0 <? count)%nat.

Definition email_required_message : string :=
    "Email is required for duplicate check.".

Definition duplicate_prefix : string :=
    "Submission already exists for email: ".

  (** [data.email || data.Email] *)
Definition email_of (data : JsObject) : JsVal :=
    js_or (prop data "email") (prop data "Email").

Definition saveToMongoDB (data : JsObject) (checkDuplicate : option bool)
      (mongoUri : option string) : M SurveyResponse :=
    _ ← Mongodb.dbConnect env mongoUri;
    let email := email_of data in
    _ ← (if truthy_flag checkDuplicate
         then
           if negb (truthy email)
           then throw (Error email_required_message)
           else
             isDuplicate ← checkDuplicateEmail email mongoUri;
             if isDuplicate : bool
             then throw (ErrorAbout duplicate_prefix email)
             else mret tt
         else mret tt);
    newResponse ← new_SurveyResponse (js_or email (VStr "anonymous")) data;
    save newResponse.

Definition handleSurveySubmission (data : JsObject) (options : Options) : M Results :=
    let results := {| results_mongo := None; results_sheets := None |} in
    results ← (if truthy_flag (mongo options)
               then
                 r ← saveToMongoDB data (checkDuplicate options) (mongoUri options);
                 mret {| results_mongo := Some r;
                         results_sheets := results_sheets results |}
               else mret results);
    results ← (match googleSheet options with
               | Some gs =>
                   let values := [Object_values data] in
                   r ← appendToGoogleSheet (spreadsheetId gs) (range gs)
                         (apiKey gs) values (accessToken gs);
                   mret {| results_mongo := results_mongo results;
                           results_sheets := Some r |}
               | None => mret results
               end);
    mret results.

End WithEnv.

(** *** uploadToGCP *)

(** [bucket.file(fileName)]: a file handle of a bucket. *)
Record GcsFile : Type := { file_name : string; file_bucket : GcpBucket.Bucket }.

(** One object written: the handle it was written through, the content. *)
Record StoredObject : Type := { obj_file : GcsFile; obj_content : list Byte.byte }.

(** What the storage library and service decide: the name a file handle
    gets for the name asked for, and whether a save goes through. *)
Record Gcs : Type := {
  handle_name : string → string;
  put_ok : GcsFile → list Byte.byte → bool
}.

(** The module state of gcpbucket.ts and the objects written so far. *)
Record Cloud : Type := {
  cloud_cache : GcpBucket.State;
  cloud_objects : list StoredObject
}.

Definition uploadToGCP (lib : GcpBucket.Library) (gcs : Gcs)
    (fileBuffer : list Byte.byte) (fileName : string)
    (gcpConfig : GcpBucket.Config) (cl : Cloud) : Result string * Cloud :=
  match GcpBucket.getBucket lib gcpConfig (cloud_cache cl) with
  | (Throw e, cache) =>
      (Throw e, {| cloud_cache := cache; cloud_objects := cloud_objects cl |})
  | (Ok bucket, cache) =>
      let file := {| file_name := handle_name gcs fileName; file_bucket := bucket |} in
      if put_ok gcs file fileBuffer
      then (Ok (file_name file),
            {| cloud_cache := cache;
               cloud_objects := cloud_objects cl ++
                 [{| obj_file := file; obj_content := fileBuffer |}] |})
      else (Throw (Rejection Network),
            {| cloud_cache := cache; cloud_objects := cloud_objects cl |})
  end.

End Server.

(** ** TEDxSurvey.tsx *)

Module TEDxSurvey.

(** Identity of the object bound to [customCss] in one render: the object
    the caller passed, or the fresh [{}] of the parameter default, which
    is a new object in every render. *)
Inductive ObjId : Type :=
  | Passed (o : nat)
  | Default (render : nat).

Global Instance ObjId_eq_dec : EqDecision ObjId.
Proof. solve_decision. Defined.

Record CssObject : Type := {
  css_id : ObjId;
  css_classes : gmap string string
}.

Global Instance CssObject_eq_dec : EqDecision CssObject.
Proof. solve_decision. Defined.

(** The props after destructuring, [customAttributes] and [json] apart:
    they configure the engine and take no part in the subscriptions.
    [otherCallbacks] is the rest object. *)
Record Props : Type := {
  customCss : option CssObject;
  onComplete : option nat;
  uploadApiUrl : option string;
  otherCallbacks : JsObject
}.

(** The closures one run of the binding effect creates.  A function is
    compared by reference: [run] is the run of the effect that created
    the closure, the other arguments are what it captured. *)
Inductive Handler : Type :=
  | HUpdateCss (run : nat) (css : CssObject)
  | HUploadFiles (run : nat) (url : option string)
  | HComplete (run : nat)
  | HDynamic (run : nat) (name : string).

Global Instance Handler_eq_dec : EqDecision Handler.
Proof. solve_decision. Defined.

(** The function the binding effect returns: it captured the three
    built-in closures of its run and [uploadApiUrl]. *)
Record Cleanup : Type := {
  cl_css : Handler;
  cl_upload : Handler;
  cl_complete : Handler;
  cl_url : option string
}.

(** The dependency array [[survey, customCss, uploadApiUrl]]; [survey]
    is the same object in every render. *)
Definition Deps : Type := (ObjId * option string)%type.

(** One mounted component.  [survey] maps each event channel of the form
    instance to its subscribers; a name outside it is a property with no
    [add] function.  [add_calls] and [remove_calls] record the calls made
    on the channels. *)
Record Component : Type := {
  survey : gmap string (list Handler);
  onCompleteRef : option nat;
  otherCallbacksRef : JsObject;
  last_deps : option Deps;
  last_cleanup : option Cleanup;
  add_calls : list (string * Handler);
  remove_calls : list (string * Handler);
  renders : nat
}.

(** Removal of a subscriber by reference: its first occurrence. *)
Fixpoint remove_first (h : Handler) (l : list Handler) : list Handler :=
  match l with
  | [] => []
  | x :: l' => if decide (x = h) then l' else x :: remove_first h l'
  end.

(** [survey[name].add(h)].  The three channels of the built-in handlers
    exist in every survey model; the closures added are new functions,
    so the engine's check for a function already subscribed never
    applies. *)
Definition channel_add (name : string) (h : Handler) (c : Component) : Component :=
  {| survey := <[name := default [] (survey c !! name) ++ [h]]> (survey c);
     onCompleteRef := onCompleteRef c;
     otherCallbacksRef := otherCallbacksRef c; last_deps := last_deps c;
     last_cleanup := last_cleanup c;
     add_calls := add_calls c ++ [(name, h)];
     remove_calls := remove_calls c; renders := renders c |}.

(** [survey[name].remove(h)] *)
Definition channel_remove (name : string) (h : Handler) (c : Component) : Component :=
  {| survey := <[name := remove_first h (default [] (survey c !! name))]> (survey c);
     onCompleteRef := onCompleteRef c;
     otherCallbacksRef := otherCallbacksRef c; last_deps := last_deps c;
     last_cleanup := last_cleanup c;
     add_calls := add_calls c;
     remove_calls := remove_calls c ++ [(name, h)]; renders := renders c |}.

(** The body of the [forEach] of lines 104 to 115 for one entry. *)
Definition bind_callback (run : nat) (c : Component) (entry : string * JsVal) : Component :=
  let name := entry.1 in
  match survey c !! name with
  | Some _ => channel_add name (HDynamic run name) c
  | None => c
  end.

(** The binding effect, lines 44 to 125: the subscriptions it makes and
    the cleanup it returns. *)
Definition bind_effect (run : nat) (css : CssObject) (url : option string)
    (c : Component) : Component * Cleanup :=
  let hCss := HUpdateCss run css in
  let c := channel_add "onUpdateQuestionCssClasses" hCss c in
  let hUpload := HUploadFiles run url in
  let c := if truthy_str url then channel_add "onUploadFiles" hUpload c else c in
  let hComplete := HComplete run in
  let c := channel_add "onComplete" hComplete c in
  let c := foldl (bind_callback run) c (Object_entries (otherCallbacksRef c)) in
  (c, {| cl_css := hCss; cl_upload := hUpload; cl_complete := hComplete;
         cl_url := url |}).

(** The returned function, lines 118 to 124. *)
Definition cleanup (k : Cleanup) (c : Component) : Component :=
  let c := channel_remove "onUpdateQuestionCssClasses" (cl_css k) c in
  let c := channel_remove "onComplete" (cl_complete k) c in
  if truthy_str (cl_url k)
  then channel_remove "onUploadFiles" (cl_upload k) c
  else c.

Definition run_last_cleanup (c : Component) : Component :=
  match last_cleanup c with
  | Some k => cleanup k c
  | None => c
  end.

(** The effect of lines 39 to 42, run after every render. *)
Definition sync_refs (p : Props) (c : Component) : Component :=
  {| survey := survey c; onCompleteRef := onComplete p;
     otherCallbacksRef := otherCallbacks p; last_deps := last_deps c;
     last_cleanup := last_cleanup c; add_calls := add_calls c;
     remove_calls := remove_calls c; renders := renders c |}.

(** [customCss = {}] in the parameter list. *)
Definition css_of (p : Props) (render : nat) : CssObject :=
  default {| css_id := Default render; css_classes := ∅ |} (customCss p).

(** One render committed: when a dependency of the binding effect is not
    the one of the previous render, its cleanup runs and the effect runs
    again; the refs are written in between. *)
Definition render (p : Props) (c : Component) : Component :=
  let css := css_of p (renders c) in
  let deps : Deps := (css_id css, uploadApiUrl p) in
  let changed := negb (bool_decide (last_deps c = Some deps)) in
  let c := if changed then run_last_cleanup c else c in
  let c := sync_refs p c in
  if changed
  then
    let '(c, k) := bind_effect (renders c) css (uploadApiUrl p) c in
    {| survey := survey c; onCompleteRef := onCompleteRef c;
       otherCallbacksRef := otherCallbacksRef c; last_deps := Some deps;
       last_cleanup := Some k; add_calls := add_calls c;
       remove_calls := remove_calls c; renders := S (renders c) |}
  else
    {| survey := survey c; onCompleteRef := onCompleteRef c;
       otherCallbacksRef := otherCallbacksRef c; last_deps := last_deps c;
       last_cleanup := last_cleanup c; add_calls := add_calls c;
       remove_calls := remove_calls c; renders := S (renders c) |}.

(** First render of a component over a new form instance whose channels
    are [channels]: [useRef] takes the props of this render. *)
Definition mount (channels : gmap string (list Handler)) (p : Props) : Component :=
  render p {| survey := channels; onCompleteRef := onComplete p;
              otherCallbacksRef := otherCallbacks p; last_deps := None;
              last_cleanup := None; add_calls := []; remove_calls := [];
              renders := 0 |}.

(** The hosting view unmounts: the cleanup of the last run is called. *)
Definition unmount (c : Component) : Component :=
  let c' := run_last_cleanup c in
  {| survey := survey c'; onCompleteRef := onCompleteRef c';
     otherCallbacksRef := otherCallbacksRef c'; last_deps := last_deps c';
     last_cleanup := None; add_calls := add_calls c';
     remove_calls := remove_calls c'; renders := renders c' |}.

(** [handleComplete], lines 95 to 100: the caller functions it calls. *)
Definition handleComplete (c : Component) : list JsVal :=
  match onCompleteRef c with
  | Some f => [VFun f]
  | None => []
  end.

(** [dynamicHandler], lines 107 to 112, for the entry [name]: the ref is
    read when the handler is called. *)
Definition dynamicHandler (name : string) (c : Component) : list JsVal :=
  let currentFunc := prop (otherCallbacksRef c) name in
  if is_function currentFunc then [currentFunc] else [].

(** The caller functions a subscriber calls when the engine invokes it. *)
Definition invoke (h : Handler) (c : Component) : list JsVal :=
  match h with
  | HDynamic _ name => dynamicHandler name c
  | HComplete _ => handleComplete c
  | HUpdateCss _ _ | HUploadFiles _ _ => []
  end.

(** The engine fires the channel [name]: every subscriber in turn. *)
Definition fire (name : string) (c : Component) : list JsVal :=
  mjoin ((λ h, invoke h c) <$> default [] (survey c !! name)).

(** Number of calls recorded for one channel and one handler. *)
Definition count_calls (name : string) (h : Handler)
    (calls : list (string * Handler)) : nat :=
  length (filter (λ x, x = (name, h)) calls).

(** *** The upload handler *)

(** The options object of an upload event: the files, by name, and the
    [callback] property, which holds the event's callback when the
    engine fires the event. *)
Record UploadOptions : Type := { files : list string; callback : JsVal }.

(** What the endpoint does with the request: [fetch] rejects, or it
    resolves to a response whose body [res.json()] parses or not. *)
Inductive Response : Type :=
  | NetworkFailure
  | Body (parsed : option JsVal).

(** What one handling of an upload event does to the outside. *)
Inductive Effect : Type :=
  | Fetch (url : string) (formData : list (string * string))
  | Called (f : nat) (args : list JsVal)
  | ConsoleError
  | Unhandled (e : JsError).

Global Instance Effect_eq_dec : EqDecision Effect.
Proof. solve_decision. Defined.

(** [v(args)]: a call of a value that is not a function throws. *)
Definition call (v : JsVal) (args : list JsVal) : Result unit * list Effect :=
  match v with
  | VFun f => (Ok tt, [Called f args])
  | _ => (Throw TypeError, [])
  end.

(** [handleUploadFiles], lines 60 to 88, with the promise chain run to
    its end: the options object as the handler leaves it, and the
    effects in order. *)
Definition handleUploadFiles (uploadApiUrl : option string)
    (options : UploadOptions) (response : Response) : UploadOptions * list Effect :=
  if negb (truthy_str uploadApiUrl) then (options, [])
  else
    let formData := (λ file, ("files", file)) <$> files options in
    let options := {| files := files options; callback := VStr "success" |} in
    let request := Fetch (default "" uploadApiUrl) formData in
    (* .then((res) => res.json()) *)
    let parsed : Result JsVal :=
      match response with
      | NetworkFailure => Throw (Rejection Network)
      | Body None => Throw SyntaxError
      | Body (Some d) => Ok d
      end in
    (* .then((data) => options.callback("success", data)) *)
    let '(settled, on_data) :=
      match parsed with
      | Ok d => call (callback options) [VStr "success"; d]
      | Throw e => (Throw e, [])
      end in
    (* .catch((err) => { console.error(...); options.callback("error") }) *)
    let '(final, on_error) :=
      match settled with
      | Ok _ => (Ok tt, [])
      | Throw _ =>
          let '(r, t) := call (callback options) [VStr "error"] in
          (r, ConsoleError :: t)
      end in
    let rejected := match final with Ok _ => [] | Throw e => [Unhandled e] end in
    (options, request :: on_data ++ on_error ++ rejected).

(** The calls of the function [f] among the effects. *)
Definition calls_of (f : nat) (effects : list Effect) : list (list JsVal) :=
  omap (λ e, match e with
             | Called g args => if decide (g = f) then Some args else None
             | _ => None
             end) effects.

(** A sequence of further renders, in order. *)
Definition render_all (c : Component) (ps : list Props) : Component :=
  foldl (λ c p, render p c) c ps.

(** The requests among the effects of a handling. *)
Definition is_fetch (e : Effect) : bool :=
  match e with Fetch _ _ => true | _ => false end.

Definition fetches (effects : list Effect) : list Effect :=
  filter (λ e, is_fetch e = true) effects.

End TEDxSurvey.

(** ** Sample inputs *)

Module Sample.

(** Every collaborator answers. *)
Definition env : Env :=
  {| MONGODB_URI := Some "mongodb://localhost/tedx"; now := 1700000000%Z;
     connect_ok := λ _, true; count_ok := true;
     save_ok := λ _, true; append_ok := λ _, true |}.

(** The database refuses connections. *)
Definition env_down : Env :=
  {| MONGODB_URI := Some "mongodb://localhost/tedx"; now := 1700000000%Z;
     connect_ok := λ _, false; count_ok := true;
     save_ok := λ _, true; append_ok := λ _, true |}.

(** MONGO_URI is not set. *)
Definition env_unset : Env :=
  {| MONGODB_URI := None; now := 1700000000%Z;
     connect_ok := λ _, true; count_ok := true;
     save_ok := λ _, true; append_ok := λ _, true |}.

(** The store refuses writes. *)
Definition env_readonly : Env :=
  {| MONGODB_URI := Some "mongodb://localhost/tedx"; now := 1700000000%Z;
     connect_ok := λ _, true; count_ok := true;
     save_ok := λ _, false; append_ok := λ _, true |}.

(** A process that has just started. *)
Definition fresh : World :=
  {| cached := {| conn := None; promise := None |}; connect_log := [];
     collection := []; next_oid := 0; sheet_log := []; sheet_rows := [] |}.

Definition ann : JsObject := [("name", VStr "Ann"); ("email", VStr "a@x.com")].

Definition no_email : JsObject := [("name", VStr "Ann")].

Definition ann_doc : SurveyResponse :=
  {| _id := 0; surveyId := None; email := VStr "a@x.com"; data := ann;
     createdAt := 1600000000%Z |}.

(** A connected process whose store holds Ann's response. *)
Definition with_ann : World :=
  {| cached := {| conn := Some {| conn_uri := "mongodb://localhost/tedx" |};
                  promise := Some (Fulfilled {| conn_uri := "mongodb://localhost/tedx" |}) |};
     connect_log := ["mongodb://localhost/tedx"];
     collection := [ann_doc]; next_oid := 1; sheet_log := []; sheet_rows := [] |}.

Definition sheet : Server.GoogleSheetOptions :=
  {| Server.spreadsheetId := "sheet-1"; Server.range := "Responses!A1";
     Server.apiKey := "key"; Server.accessToken := None |}.

Definition ann_request : AppendRequest :=
  {| req_spreadsheetId := "sheet-1"; req_range := "Responses!A1";
     req_apiKey := "key"; req_values := [[VStr "Ann"; VStr "a@x.com"]];
     req_accessToken := None |}.

(** Only the spreadsheet. *)
Definition sheet_only : Server.Options :=
  {| Server.mongo := None; Server.mongoUri := None;
     Server.checkDuplicate := None; Server.googleSheet := Some sheet;
     Server.gcp := None |}.

(** The spreadsheet, and a duplicate check asked for without the
    document store. *)
Definition sheet_only_checked : Server.Options :=
  {| Server.mongo := None; Server.mongoUri := None;
     Server.checkDuplicate := Some true; Server.googleSheet := Some sheet;
     Server.gcp := None |}.

(** Both sinks, duplicates rejected. *)
Definition both_checked : Server.Options :=
  {| Server.mongo := Some true; Server.mongoUri := None;
     Server.checkDuplicate := Some true; Server.googleSheet := Some sheet;
     Server.gcp := None |}.

(** Both sinks, no duplicate check. *)
Definition both : Server.Options :=
  {| Server.mongo := Some true; Server.mongoUri := None;
     Server.checkDuplicate := None; Server.googleSheet := Some sheet;
     Server.gcp := None |}.

(** Two service accounts, one bucket. *)
Definition uploads_a : GcpBucket.Config :=
  {| GcpBucket.credentials := VObj 1; GcpBucket.bucketName := "uploads" |}.

Definition uploads_b : GcpBucket.Config :=
  {| GcpBucket.credentials := VObj 2; GcpBucket.bucketName := "uploads" |}.


(** A form instance with no subscriber yet. *)
Definition channels : gmap string (list TEDxSurvey.Handler) :=
  {[ "onUpdateQuestionCssClasses" := []; "onUploadFiles" := [];
     "onComplete" := []; "onValueChanged" := [] ]}.

(** [<TEDxSurvey json={json} onValueChanged={f} />] *)
Definition with_f : TEDxSurvey.Props :=
  {| TEDxSurvey.customCss := None; TEDxSurvey.onComplete := None;
     TEDxSurvey.uploadApiUrl := None;
     TEDxSurvey.otherCallbacks := [("onValueChanged", VFun 1)] |}.

(** The same with another function [g]. *)
Definition with_g : TEDxSurvey.Props :=
  {| TEDxSurvey.customCss := None; TEDxSurvey.onComplete := None;
     TEDxSurvey.uploadApiUrl := None;
     TEDxSurvey.otherCallbacks := [("onValueChanged", VFun 2)] |}.

(** A style object the caller keeps across renders. *)
Definition css : TEDxSurvey.CssObject :=
  {| TEDxSurvey.css_id := TEDxSurvey.Passed 0;
     TEDxSurvey.css_classes := {[ "text" := "tedx-input" ]} |}.

Definition styled_f : TEDxSurvey.Props :=
  {| TEDxSurvey.customCss := Some css; TEDxSurvey.onComplete := None;
     TEDxSurvey.uploadApiUrl := Some "/api/upload";
     TEDxSurvey.otherCallbacks := [("onValueChanged", VFun 1)] |}.

Definition styled_g : TEDxSurvey.Props :=
  {| TEDxSurvey.customCss := Some css; TEDxSurvey.onComplete := None;
     TEDxSurvey.uploadApiUrl := Some "/api/upload";
     TEDxSurvey.otherCallbacks := [("onValueChanged", VFun 2)] |}.

(** An upload event of one file whose callback is the function 7. *)
Definition upload_event : TEDxSurvey.UploadOptions :=
  {| TEDxSurvey.files := ["cv.pdf"]; TEDxSurvey.callback := VFun 7 |}.

(** A payload keyed by [Email]. *)
Definition bo : JsObject := [("name", VStr "Bo"); ("Email", VStr "b@y.org")].

(** The sheet service refuses requests. *)
Definition env_sheet_down : Env :=
  {| MONGODB_URI := Some "mongodb://localhost/tedx"; now := 1700000000%Z;
     connect_ok := λ _, true; count_ok := true;
     save_ok := λ _, true; append_ok := λ _, false |}.

(** A client library that refuses the empty bucket name and names a
    handle after stripping one leading [gs://] and all trailing slashes,
    as the storage client in use does. *)
Fixpoint strip_trailing_slashes (n : string) : string :=
  match n with
  | EmptyString => EmptyString
  | String c rest =>
      match strip_trailing_slashes rest with
      | EmptyString =>
          if String.eqb (String c EmptyString) "/" then EmptyString
          else String c EmptyString
      | rest' => String c rest'
      end
  end.

Definition strip_gs (n : string) : string :=
  if String.prefix "gs://" n then String.substring 5 (String.length n - 5) n else n.

Definition library : GcpBucket.Library :=
  {| GcpBucket.bucket := λ n,
       if String.eqb n ""
       then Throw (Error "A bucket name is needed to use Cloud Storage.")
       else Ok (strip_trailing_slashes (strip_gs n)) |}.

(** The bucket of [uploads_a], written as a URL. *)
Definition uploads_url : GcpBucket.Config :=
  {| GcpBucket.credentials := VObj 1; GcpBucket.bucketName := "gs://uploads/" |}.

(** No bucket named. *)
Definition unnamed : GcpBucket.Config :=
  {| GcpBucket.credentials := VObj 1; GcpBucket.bucketName := "" |}.

(** A storage service that takes every object; a file handle is named
    as asked. *)
Definition gcs : Server.Gcs :=
  {| Server.handle_name := λ n, n; Server.put_ok := λ _ _, true |}.

(** A storage service that refuses every object. *)
Definition gcs_down : Server.Gcs :=
  {| Server.handle_name := λ n, n; Server.put_ok := λ _ _, false |}.

(** No client constructed, no object written. *)
Definition cloud : Server.Cloud :=
  {| Server.cloud_cache := GcpBucket.init; Server.cloud_objects := [] |}.

(** Props with a completion callback and no handler for a channel. *)
Definition plain : TEDxSurvey.Props :=
  {| TEDxSurvey.customCss := Some css; TEDxSurvey.onComplete := Some 5;
     TEDxSurvey.uploadApiUrl := Some "/api/upload";
     TEDxSurvey.otherCallbacks := [("className", VStr "wide")] |}.

(** The same with another completion callback and the style left out. *)
Definition plain_again : TEDxSurvey.Props :=
  {| TEDxSurvey.customCss := None; TEDxSurvey.onComplete := Some 6;
     TEDxSurvey.uploadApiUrl := Some "/api/upload";
     TEDxSurvey.otherCallbacks := [("className", VStr "wide")] |}.

End Sample.

(** * Properties *)

(** Unfolds the monad of the server code. *)
Ltac run_m :=
  unfold mbind, M_bind, mret, M_ret, throw, gets, modify, try_catch; simpl.

(** The sinks of a world: what the document store and the sheet hold. *)
Definition same_sinks (w w' : World) : Prop :=
  collection w' = collection w ∧
  sheet_log w' = sheet_log w ∧ sheet_rows w' = sheet_rows w.

(** [grows c c']: from [c] to [c'] subscriptions were only added. *)
Definition grows (c c' : TEDxSurvey.Component) : Prop :=
  (∀ n, is_Some (TEDxSurvey.survey c !! n) → is_Some (TEDxSurvey.survey c' !! n))
  ∧ (∀ n h, h ∈ default [] (TEDxSurvey.survey c !! n) →
            h ∈ default [] (TEDxSurvey.survey c' !! n))
  ∧ (∀ x, x ∈ TEDxSurvey.add_calls c → x ∈ TEDxSurvey.add_calls c')
  ∧ TEDxSurvey.remove_calls c' = TEDxSurvey.remove_calls c
  ∧ TEDxSurvey.otherCallbacksRef c' = TEDxSurvey.otherCallbacksRef c.

(** The subscribers the component gives to a channel [name] other than
    the completion channel: an indirection for the entry [name], or a
    closure that calls no function of the caller. *)
Definition own_subscriber (name : string) (h : TEDxSurvey.Handler) : Prop :=
  match h with
  | TEDxSurvey.HDynamic _ m => m = name
  | TEDxSurvey.HComplete _ => False
  | _ => True
  end.

(** The closures of the caller-supplied entries. *)
Definition is_dynamic (h : TEDxSurvey.Handler) : bool :=
  match h with TEDxSurvey.HDynamic _ _ => true | _ => false end.

(** The connection cache between two calls: empty, or a connection with
    the fulfilled promise it came from. *)
Definition cache_wf (w : World) : Prop :=
  match conn (cached w), promise (cached w) with
  | None, None => True
  | Some c, Some (Fulfilled c') => c = c'
  | _, _ => False
  end.

(** [typeof v === "string"] *)
Definition is_str (v : JsVal) : bool :=
  match v with VStr _ => true | _ => false end.

(** A payload whose key, when it has one, is a string: what the schema
    declares the email to be, and the values on which its cast to String
    changes nothing. *)
Definition string_keyed (data : JsObject) : Prop :=
  truthy (Server.email_of data) = true → is_str (Server.email_of data) = true.

(** The bucket cache between two calls: the cached handle belongs to the
    cached client. *)
Definition bucket_cache_wf (s : GcpBucket.State) : Prop :=
  GcpBucket.bucket_storage <$> GcpBucket.cachedBucket s = GcpBucket.cachedStorage s.

(** A form instance nobody has subscribed to yet. *)
Definition unsubscribed (channels : gmap string (list TEDxSurvey.Handler)) : Prop :=
  ∀ n l, channels !! n = Some l → l = [].

(** The three channels the built-in handlers go to. *)
Definition builtin_channels : list string :=
  ["onUpdateQuestionCssClasses"; "onUploadFiles"; "onComplete"].

Lemma same_sinks_refl w : same_sinks w w.
Proof. by repeat split. Qed.

Lemma same_sinks_trans w1 w2 w3 :
  same_sinks w1 w2 → same_sinks w2 w3 → same_sinks w1 w3.
Proof.
  intros (? & ? & ?) (? & ? & ?).
  repeat split; congruence.
Qed.

(** ** dbConnect *)

Section DbConnect.
Variable env : Env.
Implicit Types (uri : option string) (w : World).

(** No connection string: the call throws and touches nothing. *)
Lemma dbConnect_no_uri uri w :
  truthy_str (str_or uri (MONGODB_URI env)) = false →
  Mongodb.dbConnect env uri w = (Throw (Error Mongodb.no_uri_message), w).
Proof. intros H. unfold Mongodb.dbConnect. by rewrite H. Qed.

(** A cached connection is returned as it is. *)
Lemma dbConnect_cached uri w c :
  truthy_str (str_or uri (MONGODB_URI env)) = true →
  conn (cached w) = Some c →
  Mongodb.dbConnect env uri w = (Ok c, w).
Proof.
  intros H Hc. unfold Mongodb.dbConnect. rewrite H. run_m. by rewrite Hc.
Qed.

(** Nothing cached and the attempt is refused: the error is rethrown and
    the cache is empty again. *)
Lemma dbConnect_rejected uri w cs :
  str_or uri (MONGODB_URI env) = Some cs →
  truthy_str (Some cs) = true →
  conn (cached w) = None → promise (cached w) = None →
  connect_ok env cs = false →
  Mongodb.dbConnect env uri w =
    (Throw (Rejection Mongoose),
     set_promise None (set_promise (Some (Rejected (Rejection Mongoose)))
                         (log_connect cs w))).
Proof.
  intros Hs Ht Hc Hp Hk. unfold Mongodb.dbConnect, Mongodb.mongoose_connect.
  rewrite Hs, Ht. run_m. rewrite Hc, Hp. simpl. by rewrite Hk.
Qed.

(** Nothing cached and the attempt is accepted. *)
Lemma dbConnect_fresh uri w cs :
  str_or uri (MONGODB_URI env) = Some cs →
  truthy_str (Some cs) = true →
  conn (cached w) = None → promise (cached w) = None →
  connect_ok env cs = true →
  Mongodb.dbConnect env uri w =
    (Ok {| conn_uri := cs |},
     set_conn (Some {| conn_uri := cs |})
       (set_promise (Some (Fulfilled {| conn_uri := cs |})) (log_connect cs w))).
Proof.
  intros Hs Ht Hc Hp Hk. unfold Mongodb.dbConnect, Mongodb.mongoose_connect.
  rewrite Hs, Ht. run_m. rewrite Hc, Hp. simpl. by rewrite Hk.
Qed.

(** dbConnect writes no sink. *)
Lemma dbConnect_sinks uri w :
  same_sinks w (Mongodb.dbConnect env uri w).2.
Proof.
  unfold Mongodb.dbConnect, Mongodb.mongoose_connect.
  destruct (truthy_str _); run_m; [|apply same_sinks_refl].
  destruct (conn (cached w)); [apply same_sinks_refl|].
  destruct (promise (cached w)) as [[c|e]|]; simpl;
    [by repeat split..|].
  destruct (connect_ok env _); by repeat split.
Qed.

(** dbConnect constructs no document. *)
Lemma dbConnect_next_oid uri w :
  next_oid (Mongodb.dbConnect env uri w).2 = next_oid w.
Proof.
  unfold Mongodb.dbConnect, Mongodb.mongoose_connect.
  destruct (truthy_str _); run_m; [|done].
  destruct (conn (cached w)); [done|].
  destruct (promise (cached w)) as [[c|e]|]; simpl; [done..|].
  by destruct (connect_ok env _).
Qed.

(** After a successful call the connection is the cached one. *)
Lemma dbConnect_ok_cached uri w c w' :
  Mongodb.dbConnect env uri w = (Ok c, w') → conn (cached w') = Some c.
Proof.
  unfold Mongodb.dbConnect, Mongodb.mongoose_connect.
  destruct (truthy_str _); run_m; [|done].
  destruct (conn (cached w)) as [c0|] eqn:Hc; [by intros [= <- <-]|].
  destruct (promise (cached w)) as [[c1|e]|]; simpl;
    [by intros [= <- <-] | done |].
  destruct (connect_ok env _); [by intros [= <- <-] | done].
Qed.

(** A successful call had a connection string. *)
Lemma dbConnect_ok_uri uri w c w' :
  Mongodb.dbConnect env uri w = (Ok c, w') →
  truthy_str (str_or uri (MONGODB_URI env)) = true.
Proof.
  unfold Mongodb.dbConnect. by destruct (truthy_str _).
Qed.

(** Right after a successful call, a second call with the same argument
    returns the same connection and changes nothing. *)
Lemma dbConnect_again uri w c w' :
  Mongodb.dbConnect env uri w = (Ok c, w') →
  Mongodb.dbConnect env uri w' = (Ok c, w').
Proof.
  intros H. apply dbConnect_cached.
  - by eapply dbConnect_ok_uri.
  - by eapply dbConnect_ok_cached.
Qed.

End DbConnect.

(** ** checkDuplicateEmail and saveToMongoDB *)

Section Store.
Variable env : Env.
Implicit Types (uri : option string) (w : World) (data : JsObject).

Lemma checkDuplicateEmail_connected e uri w c w1 :
  Mongodb.dbConnect env uri w = (Ok c, w1) →
  count_ok env = true →
  Server.checkDuplicateEmail env e uri w =
    (Ok (0 <? length (Server.matching e (collection w)))%nat, w1).
Proof.
  intros Hc Hk. unfold Server.checkDuplicateEmail, Server.countDocuments.
  run_m. rewrite Hc, Hk. simpl.
  pose proof (dbConnect_sinks env uri w) as (Hcol & _).
  rewrite Hc in Hcol. simpl in Hcol. by rewrite Hcol.
Qed.

Lemma checkDuplicateEmail_count_fails e uri w c w1 :
  Mongodb.dbConnect env uri w = (Ok c, w1) →
  count_ok env = false →
  Server.checkDuplicateEmail env e uri w = (Throw (Rejection DocumentStore), w1).
Proof.
  intros Hc Hk. unfold Server.checkDuplicateEmail, Server.countDocuments.
  run_m. by rewrite Hc, Hk.
Qed.

Lemma checkDuplicateEmail_disconnected e uri w err w1 :
  Mongodb.dbConnect env uri w = (Throw err, w1) →
  Server.checkDuplicateEmail env e uri w = (Throw err, w1).
Proof.
  intros Hc. unfold Server.checkDuplicateEmail. run_m. by rewrite Hc.
Qed.

(** checkDuplicateEmail writes no sink. *)
Lemma checkDuplicateEmail_sinks e uri w :
  same_sinks w (Server.checkDuplicateEmail env e uri w).2.
Proof.
  pose proof (dbConnect_sinks env uri w) as Hs.
  destruct (Mongodb.dbConnect env uri w) as [[c|err] w1] eqn:Hc.
  - destruct (count_ok env) eqn:Hk.
    + by erewrite checkDuplicateEmail_connected.
    + by erewrite checkDuplicateEmail_count_fails.
  - by erewrite checkDuplicateEmail_disconnected.
Qed.

(** Neither [email] nor [Email] among the properties: the key is falsy. *)
Lemma email_of_absent data :
  get_entry data "email" = None → get_entry data "Email" = None →
  Server.email_of data = VUndefined.
Proof.
  intros H1 H2. unfold Server.email_of, js_or, prop. by rewrite H1, H2.
Qed.

(** A matching document makes the count positive. *)
Lemma matching_elem e (docs : list SurveyResponse) d :
  d ∈ docs → email d = e → (0 <? length (Server.matching e docs))%nat = true.
Proof.
  intros Hd He. apply Nat.ltb_lt.
  assert (d ∈ Server.matching e docs) as Hin.
  { unfold Server.matching. by apply list_elem_of_filter. }
  destruct (Server.matching e docs); [by apply elem_of_nil in Hin | simpl; lia].
Qed.

Lemma matching_nonempty e (docs : list SurveyResponse) :
  Server.matching e docs ≠ [] →
  (0 <? length (Server.matching e docs))%nat = true.
Proof.
  intros H. apply Nat.ltb_lt. destruct (Server.matching e docs); [done | simpl; lia].
Qed.

(** The step of saveToMongoDB after the connection: throws before any
    document is constructed when the key is missing. *)
Lemma saveToMongoDB_missing_key data cd uri w c w1 :
  Mongodb.dbConnect env uri w = (Ok c, w1) →
  truthy_flag cd = true →
  truthy (Server.email_of data) = false →
  Server.saveToMongoDB env data cd uri w =
    (Throw (Error Server.email_required_message), w1).
Proof.
  intros Hc Hcd He. unfold Server.saveToMongoDB. run_m.
  by rewrite Hc, Hcd, He.
Qed.

Lemma saveToMongoDB_duplicate data cd uri w c w1 :
  Mongodb.dbConnect env uri w = (Ok c, w1) →
  truthy_flag cd = true →
  truthy (Server.email_of data) = true →
  count_ok env = true →
  Server.matching (Server.email_of data) (collection w) ≠ [] →
  Server.saveToMongoDB env data cd uri w =
    (Throw (ErrorAbout Server.duplicate_prefix (Server.email_of data)), w1).
Proof.
  intros Hc Hcd He Hk Hm. unfold Server.saveToMongoDB.
  unfold mbind at 1. unfold M_bind at 1. rewrite Hc.
  unfold mbind at 1. unfold M_bind at 1. rewrite Hcd, He. simpl.
  unfold mbind at 1. unfold M_bind at 1.
  rewrite (checkDuplicateEmail_connected _ uri w1 c w1);
    [|by eapply dbConnect_again|done].
  pose proof (dbConnect_sinks env uri w) as (Hcol & _).
  rewrite Hc in Hcol. simpl in Hcol. rewrite Hcol.
  by rewrite matching_nonempty.
Qed.

(** The connection fails: so does the save, with the same error. *)
Lemma saveToMongoDB_disconnected data cd uri w err w1 :
  Mongodb.dbConnect env uri w = (Throw err, w1) →
  Server.saveToMongoDB env data cd uri w = (Throw err, w1).
Proof.
  intros Hc. unfold Server.saveToMongoDB. run_m. by rewrite Hc.
Qed.

(** No duplicate check: the document is constructed and saved. *)
Lemma saveToMongoDB_unchecked data cd uri w c w1 :
  Mongodb.dbConnect env uri w = (Ok c, w1) →
  truthy_flag cd = false →
  let doc := {| _id := next_oid w; surveyId := None;
                email := js_or (Server.email_of data) (VStr "anonymous");
                data := data; createdAt := now env |} in
  Server.saveToMongoDB env data cd uri w =
    if save_ok env doc
    then (Ok doc, Server.insert_doc doc (Server.bump_oid w1))
    else (Throw (Rejection DocumentStore), Server.bump_oid w1).
Proof.
  intros Hc Hcd doc. unfold Server.saveToMongoDB, Server.new_SurveyResponse, Server.save.
  run_m. rewrite Hc, Hcd. simpl.
  pose proof (dbConnect_next_oid env uri w) as Hn.
  rewrite Hc in Hn. simpl in Hn. rewrite Hn. fold doc.
  by destruct (save_ok env doc).
Qed.

(** What saveToMongoDB does once connected, case by case. *)
Lemma saveToMongoDB_connected data cd uri w c w1 :
  Mongodb.dbConnect env uri w = (Ok c, w1) →
  let e := Server.email_of data in
  let doc := {| _id := next_oid w; surveyId := None;
                email := js_or e (VStr "anonymous");
                data := data; createdAt := now env |} in
  let stored :=
    if save_ok env doc
    then (Ok doc, Server.insert_doc doc (Server.bump_oid w1))
    else (Throw (Rejection DocumentStore), Server.bump_oid w1) in
  Server.saveToMongoDB env data cd uri w =
    if truthy_flag cd then
      if truthy e then
        if count_ok env then
          if (0 <? length (Server.matching e (collection w)))%nat
          then (Throw (ErrorAbout Server.duplicate_prefix e), w1)
          else stored
        else (Throw (Rejection DocumentStore), w1)
      else (Throw (Error Server.email_required_message), w1)
    else stored.
Proof.
  intros Hc e doc stored.
  destruct (truthy_flag cd) eqn:Hcd;
    [|by apply (saveToMongoDB_unchecked data cd uri w c w1)].
  destruct (truthy e) eqn:He;
    [|by apply (saveToMongoDB_missing_key data cd uri w c w1)].
  pose proof (dbConnect_sinks env uri w) as (Hcol & _).
  rewrite Hc in Hcol. simpl in Hcol.
  pose proof (dbConnect_next_oid env uri w) as Hn.
  rewrite Hc in Hn. simpl in Hn.
  pose proof (dbConnect_again env uri w c w1 Hc) as Hc1.
  unfold Server.saveToMongoDB.
  unfold mbind at 1. unfold M_bind at 1. rewrite Hc.
  unfold mbind at 1. unfold M_bind at 1. fold e. rewrite Hcd, He. simpl.
  unfold mbind at 1. unfold M_bind at 1.
  destruct (count_ok env) eqn:Hk.
  - rewrite (checkDuplicateEmail_connected e uri w1 c w1 Hc1 Hk), Hcol.
    destruct (0 <? _)%nat; [done|].
    unfold Server.new_SurveyResponse, Server.save. run_m.
    rewrite Hn. fold e doc. unfold stored. by destruct (save_ok env doc).
  - by rewrite (checkDuplicateEmail_count_fails e uri w1 c w1 Hc1 Hk).
Qed.

(** A save that throws has written no sink. *)
Lemma saveToMongoDB_throw_sinks data cd uri w err w' :
  Server.saveToMongoDB env data cd uri w = (Throw err, w') →
  same_sinks w w'.
Proof.
  pose proof (dbConnect_sinks env uri w) as Hs.
  destruct (Mongodb.dbConnect env uri w) as [[c|e0] w1] eqn:Hc; simpl in Hs.
  - rewrite (saveToMongoDB_connected data cd uri w c w1 Hc).
    assert (same_sinks w (Server.bump_oid w1)) as Hb by done.
    repeat case_match; intros [= <- <-]; done.
  - rewrite (saveToMongoDB_disconnected data cd uri w e0 w1 Hc).
    by intros [= <- <-].
Qed.

(** A save that returns has added its document to the store, and only
    that; the sheet is as it was. *)
Lemma saveToMongoDB_ok_store data cd uri w doc w' :
  Server.saveToMongoDB env data cd uri w = (Ok doc, w') →
  collection w' = collection w ++ [doc] ∧
  sheet_log w' = sheet_log w ∧ sheet_rows w' = sheet_rows w.
Proof.
  pose proof (dbConnect_sinks env uri w) as Hs.
  destruct (Mongodb.dbConnect env uri w) as [[c|e0] w1] eqn:Hc; simpl in Hs.
  - rewrite (saveToMongoDB_connected data cd uri w c w1 Hc).
    destruct Hs as (Hcol & Hl & Hr).
    repeat case_match; intros [= <- <-]; simpl; by rewrite Hcol.
  - by rewrite (saveToMongoDB_disconnected data cd uri w e0 w1 Hc).
Qed.

End Store.

(** ** handleSurveySubmission *)

Section Submission.
Variable env : Env.
Implicit Types (w : World) (data : JsObject) (options : Server.Options).

(** The request the sheet step issues for a payload. *)
Lemma appendToGoogleSheet_run sid rng key values token w :
  let req := {| req_spreadsheetId := sid; req_range := rng; req_apiKey := key;
                req_values := values; req_accessToken := token |} in
  Server.appendToGoogleSheet env sid rng key values token w =
    if append_ok env req
    then (Ok {| appended := req |}, Server.add_rows values (Server.log_append req w))
    else (Throw (Rejection Sheets), Server.log_append req w).
Proof.
  intros req. unfold Server.appendToGoogleSheet. run_m. fold req.
  by destruct (append_ok env req).
Qed.

(** The document store is not asked for: only the sheet step runs. *)
Lemma handleSurveySubmission_no_mongo data options w :
  truthy_flag (Server.mongo options) = false →
  Server.handleSurveySubmission env data options w =
    match Server.googleSheet options with
    | Some gs =>
        match Server.appendToGoogleSheet env (Server.spreadsheetId gs)
                (Server.range gs) (Server.apiKey gs) [Object_values data]
                (Server.accessToken gs) w with
        | (Ok r, w') =>
            (Ok {| Server.results_mongo := None; Server.results_sheets := Some r |}, w')
        | (Throw e, w') => (Throw e, w')
        end
    | None =>
        (Ok {| Server.results_mongo := None; Server.results_sheets := None |}, w)
    end.
Proof.
  intros Hm. unfold Server.handleSurveySubmission. rewrite Hm.
  unfold mbind, M_bind, mret, M_ret.
  destruct (Server.googleSheet options) as [gs|]; [|done].
  by destruct (Server.appendToGoogleSheet _ _ _ _ _ _ _) as [[r|e] w'].
Qed.

(** The save throws: the error leaves the call, the sheet step is not
    reached. *)
Lemma handleSurveySubmission_save_throws data options w err w1 :
  truthy_flag (Server.mongo options) = true →
  Server.saveToMongoDB env data (Server.checkDuplicate options)
    (Server.mongoUri options) w = (Throw err, w1) →
  Server.handleSurveySubmission env data options w = (Throw err, w1).
Proof.
  intros Hm Hs. unfold Server.handleSurveySubmission. rewrite Hm.
  unfold mbind, M_bind, mret, M_ret. by rewrite Hs.
Qed.

(** The save returns: the sheet step runs next, on the world it left. *)
Lemma handleSurveySubmission_save_returns data options w doc w1 :
  truthy_flag (Server.mongo options) = true →
  Server.saveToMongoDB env data (Server.checkDuplicate options)
    (Server.mongoUri options) w = (Ok doc, w1) →
  Server.handleSurveySubmission env data options w =
    match Server.googleSheet options with
    | Some gs =>
        match Server.appendToGoogleSheet env (Server.spreadsheetId gs)
                (Server.range gs) (Server.apiKey gs) [Object_values data]
                (Server.accessToken gs) w1 with
        | (Ok r, w') =>
            (Ok {| Server.results_mongo := Some doc; Server.results_sheets := Some r |}, w')
        | (Throw e, w') => (Throw e, w')
        end
    | None =>
        (Ok {| Server.results_mongo := Some doc; Server.results_sheets := None |}, w1)
    end.
Proof.
  intros Hm Hs. unfold Server.handleSurveySubmission. rewrite Hm.
  unfold mbind, M_bind, mret, M_ret. rewrite Hs.
  destruct (Server.googleSheet options) as [gs|]; [|done].
  by destruct (Server.appendToGoogleSheet _ _ _ _ _ _ _) as [[r|e] w'].
Qed.

End Submission.

(** ** The claims about the server *)

(** C7. Once connected, and when the store answers the count,
    checkDuplicateEmail returns [true] exactly when the store holds at
    least one document with that email: [false] when none matches,
    [true] when some document carries it. *)
Theorem checkDuplicateEmail_iff_count env e uri w c w1 :
  Mongodb.dbConnect env uri w = (Ok c, w1) →
  count_ok env = true →
  ∃ b, Server.checkDuplicateEmail env e uri w = (Ok b, w1)
     ∧ (b = true ↔ 0 < length (Server.matching e (collection w)))
     ∧ (Server.matching e (collection w) = [] → b = false)
     ∧ (∀ d, d ∈ collection w → email d = e → b = true).
Proof.
  intros Hc Hk. eexists.
  split; [by apply (checkDuplicateEmail_connected env e uri w c w1)|].
  split; [by rewrite Nat.ltb_lt|]. split.
  - by intros ->.
  - intros d Hd He. by eapply matching_elem.
Qed.

Lemma checkDuplicateEmail_iff_count_witness :
  ∃ b, Server.checkDuplicateEmail Sample.env (VStr "a@x.com") None Sample.with_ann
         = (Ok b, Sample.with_ann)
     ∧ (b = true ↔ 0 < length (Server.matching (VStr "a@x.com") (collection Sample.with_ann)))
     ∧ (Server.matching (VStr "a@x.com") (collection Sample.with_ann) = [] → b = false)
     ∧ (∀ d, d ∈ collection Sample.with_ann → email d = VStr "a@x.com" → b = true).
Proof.
  apply (checkDuplicateEmail_iff_count Sample.env (VStr "a@x.com") None
           Sample.with_ann {| conn_uri := "mongodb://localhost/tedx" |});
    reflexivity.
Defined.

(** The save of a payload with a key, then the check of that key: the
    check finds the document just saved. *)
Lemma checkDuplicateEmail_after_save env data cd uri w doc w' :
  Server.saveToMongoDB env data cd uri w = (Ok doc, w') →
  truthy (Server.email_of data) = true →
  count_ok env = true →
  Server.checkDuplicateEmail env (Server.email_of data) uri w' = (Ok true, w').
Proof.
  intros Hs He Hk.
  destruct (Mongodb.dbConnect env uri w) as [[c|e0] w1] eqn:Hc;
    [|by rewrite (saveToMongoDB_disconnected env data cd uri w e0 w1 Hc) in Hs].
  pose proof (dbConnect_ok_cached env uri w c w1 Hc) as Hconn.
  pose proof (dbConnect_ok_uri env uri w c w1 Hc) as Huri.
  destruct (saveToMongoDB_ok_store env data cd uri w doc w' Hs) as (Hcol & _).
  rewrite (saveToMongoDB_connected env data cd uri w c w1 Hc) in Hs.
  assert (conn (cached w') = Some c ∧
          email doc = js_or (Server.email_of data) (VStr "anonymous")) as [Hc' Hd].
  { repeat case_match; simplify_eq; done. }
  rewrite (checkDuplicateEmail_connected env _ uri w' c w');
    [|by apply dbConnect_cached|done].
  f_equal. f_equal. eapply (matching_elem _ _ doc).
  - rewrite Hcol. apply elem_of_app. right. by apply list_elem_of_singleton.
  - rewrite Hd. unfold js_or. by rewrite He.
Qed.

(** C9. Without a connection string, neither passed nor in the
    environment, dbConnect throws at once and leaves the process state
    as it was.  When the connection attempt is refused, the error is
    rethrown, the cache holds neither a connection nor a promise, and
    the next call makes a new attempt. *)
Theorem dbConnect_fails_fast_and_retries env uri w :
  (truthy_str uri = false → truthy_str (MONGODB_URI env) = false →
   Mongodb.dbConnect env uri w = (Throw (Error Mongodb.no_uri_message), w))
  ∧ (∀ cs, str_or uri (MONGODB_URI env) = Some cs → truthy_str (Some cs) = true →
     conn (cached w) = None → promise (cached w) = None →
     connect_ok env cs = false →
     ∃ w', Mongodb.dbConnect env uri w = (Throw (Rejection Mongoose), w')
         ∧ cached w' = {| conn := None; promise := None |}
         ∧ connect_log w' = connect_log w ++ [cs]
         ∧ same_sinks w w'
         ∧ ∀ env2 : Env, MONGODB_URI env2 = MONGODB_URI env →
             connect_log (Mongodb.dbConnect env2 uri w').2 = connect_log w' ++ [cs]
             ∧ (connect_ok env2 cs = true →
                (Mongodb.dbConnect env2 uri w').1 = Ok {| conn_uri := cs |})).
Proof.
  split.
  - intros Hu He. apply dbConnect_no_uri. unfold str_or. by rewrite Hu.
  - intros cs Hs Ht Hc Hp Hk. eexists. split; [by apply dbConnect_rejected|].
    split; [by unfold set_promise, set_cached; simpl; rewrite Hc|].
    split; [done|]. split; [done|].
    intros env2 He2.
    assert (str_or uri (MONGODB_URI env2) = Some cs) as Hs2 by by rewrite He2.
    destruct (connect_ok env2 cs) eqn:Hk2.
    + rewrite (dbConnect_fresh env2 uri _ cs); done.
    + rewrite (dbConnect_rejected env2 uri _ cs); done.
Qed.

Lemma dbConnect_fails_fast_and_retries_witness :
  Mongodb.dbConnect Sample.env_unset None Sample.fresh
    = (Throw (Error Mongodb.no_uri_message), Sample.fresh)
  ∧ ∃ w', Mongodb.dbConnect Sample.env_down None Sample.fresh
            = (Throw (Rejection Mongoose), w')
        ∧ cached w' = {| conn := None; promise := None |}
        ∧ connect_log (Mongodb.dbConnect Sample.env None w').2
            = connect_log w' ++ ["mongodb://localhost/tedx"].
Proof.
  split.
  - apply (proj1 (dbConnect_fails_fast_and_retries Sample.env_unset None Sample.fresh));
      reflexivity.
  - destruct (proj2 (dbConnect_fails_fast_and_retries Sample.env_down None Sample.fresh)
                "mongodb://localhost/tedx" eq_refl eq_refl eq_refl eq_refl eq_refl)
      as (w' & H1 & H2 & _ & _ & H3).
    exists w'. split; [exact H1|]. split; [exact H2|].
    exact (proj1 (H3 Sample.env eq_refl)).
Defined.

(** C10. Duplicate check off, neither [email] nor [Email] in the payload:
    once connected, and when the store accepts the write, saveToMongoDB
    returns the document it stored, whose email is ['anonymous'], whose
    data is the whole payload and whose creation time is the clock's. *)
Theorem saveToMongoDB_anonymous env data cd uri w c w1 :
  get_entry data "email" = None → get_entry data "Email" = None →
  truthy_flag cd = false →
  Mongodb.dbConnect env uri w = (Ok c, w1) →
  let doc := {| _id := next_oid w; surveyId := None;
                email := VStr "anonymous"; data := data;
                createdAt := now env |} in
  save_ok env doc = true →
  ∃ w', Server.saveToMongoDB env data cd uri w = (Ok doc, w')
      ∧ collection w' = collection w ++ [doc].
Proof.
  intros H1 H2 Hcd Hc doc Hok.
  pose proof (saveToMongoDB_unchecked env data cd uri w c w1 Hc Hcd) as Hs.
  simpl in Hs. rewrite (email_of_absent data H1 H2) in Hs.
  change (js_or VUndefined (VStr "anonymous")) with (VStr "anonymous") in Hs.
  fold doc in Hs. rewrite Hok in Hs.
  eexists. split; [exact Hs|].
  by eapply saveToMongoDB_ok_store.
Qed.

Lemma saveToMongoDB_anonymous_witness :
  ∃ w', Server.saveToMongoDB Sample.env Sample.no_email None None Sample.fresh
          = (Ok {| _id := 0; surveyId := None; email := VStr "anonymous";
                   data := Sample.no_email; createdAt := 1700000000%Z |}, w')
      ∧ collection w'
          = [{| _id := 0; surveyId := None; email := VStr "anonymous";
                data := Sample.no_email; createdAt := 1700000000%Z |}].
Proof.
  eapply (saveToMongoDB_anonymous Sample.env Sample.no_email None None Sample.fresh);
    reflexivity.
Defined.

(** C3, as the code has it.  With the document store enabled and the
    duplicate check asked for: a payload whose [email] and [Email] are
    both falsy, in particular absent, makes the call throw the
    missing-key error, and a payload whose key is already in the store
    makes it throw the duplicate error about that key, as soon as the
    connection is made and the count answered; and in every environment
    the call throws with nothing written to the store or the sheet. *)
Theorem duplicate_check_aborts_submission env data options w :
  truthy_flag (Server.mongo options) = true →
  truthy_flag (Server.checkDuplicate options) = true →
  let key := Server.email_of data in
  (get_entry data "email" = None → get_entry data "Email" = None →
   truthy key = false)
  ∧ (∀ c w1, Mongodb.dbConnect env (Server.mongoUri options) w = (Ok c, w1) →
     (truthy key = false →
      Server.handleSurveySubmission env data options w =
        (Throw (Error Server.email_required_message), w1))
     ∧ (truthy key = true → count_ok env = true →
        Server.matching key (collection w) ≠ [] →
        Server.handleSurveySubmission env data options w =
          (Throw (ErrorAbout Server.duplicate_prefix key), w1)))
  ∧ (truthy key = false ∨ Server.matching key (collection w) ≠ [] →
     ∃ err w', Server.handleSurveySubmission env data options w = (Throw err, w')
             ∧ same_sinks w w').
Proof.
  intros Hm Hcd key. split; [|split].
  - intros H1 H2. unfold key. by rewrite email_of_absent.
  - intros c w1 Hc. split.
    + intros Hk. apply handleSurveySubmission_save_throws; [done|].
      by apply (saveToMongoDB_missing_key env data _ _ w c w1).
    + intros Hk Hcount Hdup. apply handleSurveySubmission_save_throws; [done|].
      by apply (saveToMongoDB_duplicate env data _ _ w c w1).
  - intros Hcase.
    assert (∃ err w', Server.saveToMongoDB env data (Server.checkDuplicate options)
                        (Server.mongoUri options) w = (Throw err, w')) as (err & w' & Hs).
    { destruct (Mongodb.dbConnect env (Server.mongoUri options) w)
        as [[c|e0] w1] eqn:Hc.
      - rewrite (saveToMongoDB_connected env data _ _ w c w1 Hc), Hcd.
        fold key. destruct (truthy key) eqn:Hk.
        + destruct Hcase as [?|Hdup]; [done|].
          rewrite (matching_nonempty _ _ Hdup).
          destruct (count_ok env); eauto.
        + eauto.
      - rewrite (saveToMongoDB_disconnected env data _ _ w e0 w1 Hc). eauto. }
    exists err, w'. split.
    + by apply handleSurveySubmission_save_throws.
    + by eapply saveToMongoDB_throw_sinks.
Qed.

Lemma duplicate_check_aborts_submission_witness :
  Server.handleSurveySubmission Sample.env Sample.no_email Sample.both_checked
      Sample.with_ann
    = (Throw (Error Server.email_required_message), Sample.with_ann)
  ∧ Server.handleSurveySubmission Sample.env Sample.ann Sample.both_checked
      Sample.with_ann
    = (Throw (ErrorAbout Server.duplicate_prefix (VStr "a@x.com")), Sample.with_ann).
Proof.
  split.
  - apply (proj1 (proj2 (duplicate_check_aborts_submission Sample.env
             Sample.no_email Sample.both_checked Sample.with_ann eq_refl eq_refl))
             {| conn_uri := "mongodb://localhost/tedx" |} Sample.with_ann eq_refl);
      reflexivity.
  - apply (proj1 (proj2 (duplicate_check_aborts_submission Sample.env
             Sample.ann Sample.both_checked Sample.with_ann eq_refl eq_refl))
             {| conn_uri := "mongodb://localhost/tedx" |} Sample.with_ann eq_refl);
      [reflexivity | reflexivity | discriminate].
Defined.

(** C3 as stated fails: the duplicate check asked for, the document store
    not enabled.  A payload without a key, and a payload whose key is in
    the store, are both appended to the sheet and the call returns. *)
Lemma duplicate_check_skipped_without_mongo :
  Server.checkDuplicate Sample.sheet_only_checked = Some true
  ∧ get_entry Sample.no_email "email" = None
  ∧ Server.handleSurveySubmission Sample.env Sample.no_email
      Sample.sheet_only_checked Sample.with_ann
    = (Ok {| Server.results_mongo := None;
             Server.results_sheets :=
               Some {| appended :=
                 {| req_spreadsheetId := "sheet-1"; req_range := "Responses!A1";
                    req_apiKey := "key"; req_values := [[VStr "Ann"]];
                    req_accessToken := None |} |} |},
       Server.add_rows [[VStr "Ann"]]
         (Server.log_append
            {| req_spreadsheetId := "sheet-1"; req_range := "Responses!A1";
               req_apiKey := "key"; req_values := [[VStr "Ann"]];
               req_accessToken := None |} Sample.with_ann))
  ∧ Sample.ann_doc ∈ collection Sample.with_ann
  ∧ email Sample.ann_doc = Server.email_of Sample.ann
  ∧ Server.handleSurveySubmission Sample.env Sample.ann
      Sample.sheet_only_checked Sample.with_ann
    = (Ok {| Server.results_mongo := None;
             Server.results_sheets := Some {| appended := Sample.ann_request |} |},
       Server.add_rows [[VStr "Ann"; VStr "a@x.com"]]
         (Server.log_append Sample.ann_request Sample.with_ann)).
Proof.
  repeat split; try reflexivity. apply list_elem_of_singleton. reflexivity.
Qed.

(** C4. In the object handleSurveySubmission returns, [mongo] is present
    only when [options.mongo] was set and saveToMongoDB returned the
    value under it, and [sheets] only when [options.googleSheet] was set
    and the append returned the value under it.  An error thrown by the
    save, the one of the duplicate check included, leaves the call as it
    is, and the sheet has received nothing. *)
Theorem handleSurveySubmission_keys env data options w :
  (∀ r w', Server.handleSurveySubmission env data options w = (Ok r, w') →
     (∀ doc, Server.results_mongo r = Some doc →
        truthy_flag (Server.mongo options) = true
        ∧ ∃ w1, Server.saveToMongoDB env data (Server.checkDuplicate options)
                  (Server.mongoUri options) w = (Ok doc, w1))
     ∧ (∀ res, Server.results_sheets r = Some res →
        ∃ gs w1, Server.googleSheet options = Some gs
               ∧ Server.appendToGoogleSheet env (Server.spreadsheetId gs)
                   (Server.range gs) (Server.apiKey gs) [Object_values data]
                   (Server.accessToken gs) w1 = (Ok res, w')))
  ∧ (∀ err w1, truthy_flag (Server.mongo options) = true →
       Server.saveToMongoDB env data (Server.checkDuplicate options)
         (Server.mongoUri options) w = (Throw err, w1) →
       Server.handleSurveySubmission env data options w = (Throw err, w1)
       ∧ sheet_log w1 = sheet_log w ∧ sheet_rows w1 = sheet_rows w)
  ∧ (∀ err c w1 w2, truthy_flag (Server.mongo options) = true →
       truthy_flag (Server.checkDuplicate options) = true →
       truthy (Server.email_of data) = true →
       Mongodb.dbConnect env (Server.mongoUri options) w = (Ok c, w1) →
       Server.checkDuplicateEmail env (Server.email_of data)
         (Server.mongoUri options) w1 = (Throw err, w2) →
       Server.handleSurveySubmission env data options w = (Throw err, w2)
       ∧ sheet_log w2 = sheet_log w ∧ sheet_rows w2 = sheet_rows w).
Proof.
  split; [|split].
  - intros r w' Hr.
    destruct (truthy_flag (Server.mongo options)) eqn:Hm.
    + destruct (Server.saveToMongoDB env data (Server.checkDuplicate options)
                  (Server.mongoUri options) w) as [[doc|e] w1] eqn:Hs.
      * rewrite (handleSurveySubmission_save_returns env data options w doc w1 Hm Hs) in Hr.
        destruct (Server.googleSheet options) as [gs|] eqn:Hg.
        -- destruct (Server.appendToGoogleSheet _ _ _ _ _ _ _) as [[res|e] w2] eqn:Ha;
             [|done].
           injection Hr as <- <-. simpl. split.
           ++ intros ? [= <-]. eauto.
           ++ intros ? [= <-]. eauto.
        -- injection Hr as <- <-. simpl. split; [|done].
           intros ? [= <-]. eauto.
      * by rewrite (handleSurveySubmission_save_throws env data options w e w1 Hm Hs) in Hr.
    + rewrite (handleSurveySubmission_no_mongo env data options w Hm) in Hr.
      destruct (Server.googleSheet options) as [gs|] eqn:Hg.
      * destruct (Server.appendToGoogleSheet _ _ _ _ _ _ _) as [[res|e] w2] eqn:Ha;
          [|done].
        injection Hr as <- <-. simpl. split; [done|].
        intros ? [= <-]. eauto.
      * injection Hr as <- <-. by simpl.
  - intros err w1 Hm Hs. split; [by apply handleSurveySubmission_save_throws|].
    by destruct (saveToMongoDB_throw_sinks env data _ _ w err w1 Hs) as (_ & ? & ?).
  - intros err c w1 w2 Hm Hcd Hk Hc Hchk.
    assert (Server.saveToMongoDB env data (Server.checkDuplicate options)
              (Server.mongoUri options) w = (Throw err, w2)) as Hs.
    { pose proof (dbConnect_again env _ w c w1 Hc) as Hc1.
      rewrite (saveToMongoDB_connected env data _ _ w c w1 Hc), Hcd, Hk.
      destruct (count_ok env) eqn:Hcount.
      - by rewrite (checkDuplicateEmail_connected env _ _ w1 c w1 Hc1 Hcount) in Hchk.
      - rewrite (checkDuplicateEmail_count_fails env _ _ w1 c w1 Hc1 Hcount) in Hchk.
        by injection Hchk as <- <-. }
    split; [by apply handleSurveySubmission_save_throws|].
    by destruct (saveToMongoDB_throw_sinks env data _ _ w err w2 Hs) as (_ & ? & ?).
Qed.

Lemma handleSurveySubmission_keys_witness :
  (Server.handleSurveySubmission Sample.env_readonly Sample.ann Sample.both Sample.fresh).1
    = Throw (Rejection DocumentStore)
  ∧ sheet_log (Server.handleSurveySubmission Sample.env_readonly Sample.ann
                 Sample.both Sample.fresh).2 = [].
Proof.
  destruct (proj1 (proj2 (handleSurveySubmission_keys Sample.env_readonly Sample.ann
                            Sample.both Sample.fresh))
              (Rejection DocumentStore)
              (Server.saveToMongoDB Sample.env_readonly Sample.ann None None
                 Sample.fresh).2 eq_refl eq_refl) as (H1 & H2 & _).
  split.
  - by rewrite H1.
  - rewrite H1. exact H2.
Defined.

(** C5. With the spreadsheet configured and the document store not
    enabled, handleSurveySubmission issues exactly one append, of one row
    holding the payload's values in enumeration order; when the service
    accepts it the sheet gains that row and the call returns with
    [sheets] alone; the connection cache and the store are untouched. *)
Theorem sheet_only_submission env data options gs w :
  truthy_flag (Server.mongo options) = false →
  Server.googleSheet options = Some gs →
  let req := {| req_spreadsheetId := Server.spreadsheetId gs;
                req_range := Server.range gs; req_apiKey := Server.apiKey gs;
                req_values := [Object_values data];
                req_accessToken := Server.accessToken gs |} in
  let out := Server.handleSurveySubmission env data options w in
  sheet_log out.2 = sheet_log w ++ [req]
  ∧ length (req_values req) = 1
  ∧ cached out.2 = cached w ∧ connect_log out.2 = connect_log w
  ∧ collection out.2 = collection w ∧ next_oid out.2 = next_oid w
  ∧ (append_ok env req = true →
     out.1 = Ok {| Server.results_mongo := None;
                   Server.results_sheets := Some {| appended := req |} |}
     ∧ sheet_rows out.2 = sheet_rows w ++ [Object_values data])
  ∧ (append_ok env req = false →
     out.1 = Throw (Rejection Sheets) ∧ sheet_rows out.2 = sheet_rows w).
Proof.
  intros Hm Hg req out. unfold out.
  rewrite (handleSurveySubmission_no_mongo env data options w Hm), Hg.
  rewrite appendToGoogleSheet_run. fold req.
  destruct (append_ok env req); simpl; repeat split; done.
Qed.

Lemma sheet_only_submission_witness :
  sheet_log (Server.handleSurveySubmission Sample.env Sample.ann Sample.sheet_only
               Sample.fresh).2 = [Sample.ann_request]
  ∧ sheet_rows (Server.handleSurveySubmission Sample.env Sample.ann Sample.sheet_only
                  Sample.fresh).2 = [[VStr "Ann"; VStr "a@x.com"]]
  ∧ collection (Server.handleSurveySubmission Sample.env Sample.ann Sample.sheet_only
                  Sample.fresh).2 = []
  ∧ connect_log (Server.handleSurveySubmission Sample.env Sample.ann Sample.sheet_only
                   Sample.fresh).2 = [].
Proof.
  destruct (sheet_only_submission Sample.env Sample.ann Sample.sheet_only Sample.sheet
              Sample.fresh eq_refl eq_refl)
    as (H1 & _ & _ & H2 & H3 & _ & H4 & _).
  destruct (H4 eq_refl) as (_ & H5).
  split; [exact H1|]. split; [exact H5|]. split; [exact H3 | exact H2].
Defined.

(** ** getBucket *)

Section Bucket.
Import GcpBucket.
Variable lib : Library.
Implicit Types (config : Config) (s : State).

(** The test of line 11 reads the cached handle's name and nothing else
    of the configuration. *)
Lemma cache_hit_iff config s :
  cache_hit config s = true ↔
  ∃ st b, cachedStorage s = Some st ∧ cachedBucket s = Some b
        ∧ name b = bucketName config.
Proof.
  unfold cache_hit. destruct (cachedStorage s) as [st|], (cachedBucket s) as [b|];
    simpl; split; try done; try (by intros (? & ? & ? & ? & ?)).
  - intros H%String.eqb_eq. eauto.
  - intros (? & ? & _ & [= <-] & ->). apply String.eqb_refl.
Qed.

Lemma getBucket_hit config s :
  cache_hit config s = true →
  ∃ b, cachedBucket s = Some b ∧ getBucket lib config s = (Ok b, s).
Proof.
  unfold cache_hit, getBucket.
  destruct (cachedStorage s) as [st|], (cachedBucket s) as [b|]; simpl; try done.
  intros ->. eauto.
Qed.

Lemma getBucket_miss config s :
  cache_hit config s = false → getBucket lib config s = construct lib config s.
Proof.
  unfold cache_hit, getBucket.
  destruct (cachedStorage s) as [st|], (cachedBucket s) as [b|]; simpl; try done.
  by intros ->.
Qed.

(** After a call for a name the library keeps as it is, a configuration
    naming the same bucket hits. *)
Lemma getBucket_then_hit config config' s :
  bucket lib (bucketName config) = Ok (bucketName config) →
  bucketName config' = bucketName config →
  cache_hit config' (getBucket lib config s).2 = true.
Proof.
  intros Hk Hn. destruct (cache_hit config s) eqn:Hh.
  - destruct (getBucket_hit config s Hh) as (b & Hb & ->). simpl.
    apply cache_hit_iff. apply cache_hit_iff in Hh as (st & b' & ? & ? & ?).
    exists st, b'. by rewrite Hn.
  - rewrite (getBucket_miss config s Hh). unfold construct, cache_hit.
    rewrite Hk. simpl. rewrite Hn. apply String.eqb_refl.
Qed.

(** A run of calls that all name the bucket the cache already holds
    constructs nothing and returns the cached handle every time. *)
Lemma getBucket_seq_hits configs s b n :
  cachedBucket s = Some b → is_Some (cachedStorage s) → name b = n →
  Forall (λ c, bucketName c = n) configs →
  getBucket_seq lib configs s = (replicate (length configs) (Ok b), s).
Proof.
  intros Hb [st Hst] Hn. induction 1 as [|c cs Hc _ IH]; [done|].
  simpl. assert (cache_hit c s = true) as Hh.
  { apply cache_hit_iff. exists st, b. by rewrite Hc. }
  destruct (getBucket_hit c s Hh) as (b' & Hb' & ->).
  rewrite IH. by simplify_eq.
Qed.

(** What a call that builds a client leaves. *)
Lemma construct_run config s :
  let storage := {| storage_id := constructed s;
                    storage_credentials := credentials config |} in
  let out := construct lib config s in
  constructed out.2 = S (constructed s)
  ∧ cachedStorage out.2 = Some storage
  ∧ match bucket lib (bucketName config) with
    | Ok n =>
        out.1 = Ok {| name := n; bucket_storage := storage |}
        ∧ cachedBucket out.2 = Some {| name := n; bucket_storage := storage |}
    | Throw e => out.1 = Throw e ∧ cachedBucket out.2 = cachedBucket s
    end.
Proof. simpl. unfold construct. by destruct (bucket lib (bucketName config)). Qed.

End Bucket.




(** ** The upload handler *)

(** C2 fails on the code.  With an endpoint configured, line 69 assigns
    the string ["success"] to [options.callback] before the request is
    sent; both later calls of [options.callback] are calls of that
    string.  Whatever the endpoint answers, no function is called, the
    event's callback least of all, and the chain ends in an unhandled
    TypeError. *)
Theorem upload_callback_is_overwritten url options response :
  truthy_str url = true →
  let out := TEDxSurvey.handleUploadFiles url options response in
  TEDxSurvey.callback out.1 = VStr "success"
  ∧ (∀ f, TEDxSurvey.calls_of f out.2 = [])
  ∧ last out.2 = Some (TEDxSurvey.Unhandled TypeError).
Proof.
  intros Hu out. unfold out, TEDxSurvey.handleUploadFiles. rewrite Hu.
  destruct response as [|[d|]]; simpl; done.
Qed.

Lemma upload_callback_is_overwritten_witness :
  TEDxSurvey.calls_of 7
    (TEDxSurvey.handleUploadFiles (Some "/api/upload") Sample.upload_event
       (TEDxSurvey.Body (Some (VObj 0)))).2 = []
  ∧ TEDxSurvey.calls_of 7
      (TEDxSurvey.handleUploadFiles (Some "/api/upload") Sample.upload_event
         TEDxSurvey.NetworkFailure).2 = [].
Proof.
  split.
  - apply (upload_callback_is_overwritten (Some "/api/upload") Sample.upload_event
             (TEDxSurvey.Body (Some (VObj 0))) eq_refl).
  - apply (upload_callback_is_overwritten (Some "/api/upload") Sample.upload_event
             TEDxSurvey.NetworkFailure eq_refl).
Defined.

(** ** The binding effect *)

Section Binding.
Import TEDxSurvey.
Implicit Types (c : Component) (h : Handler) (name n : string) (p : Props).

Lemma grows_refl c : grows c c.
Proof. by repeat split. Qed.

Lemma grows_trans c1 c2 c3 : grows c1 c2 → grows c2 c3 → grows c1 c3.
Proof.
  intros (A1 & B1 & C1 & D1 & E1) (A2 & B2 & C2 & D2 & E2).
  repeat split; [naive_solver..|congruence|congruence].
Qed.

Lemma channel_add_grows n h c : grows c (channel_add n h c).
Proof.
  unfold grows, channel_add; simpl. repeat split.
  - intros m Hm. destruct (decide (n = m)) as [->|Hne].
    + rewrite lookup_insert_eq. eauto.
    + by rewrite lookup_insert_ne.
  - intros m h' Hh. destruct (decide (n = m)) as [->|Hne].
    + rewrite lookup_insert_eq. simpl. apply elem_of_app. by left.
    + by rewrite lookup_insert_ne.
  - intros x Hx. apply elem_of_app. by left.
Qed.

(** What an [add] leaves: the handler on the channel, the call on record. *)
Lemma channel_add_subscribed n h c :
  h ∈ default [] (survey (channel_add n h c) !! n)
  ∧ (n, h) ∈ add_calls (channel_add n h c).
Proof.
  unfold channel_add; simpl. rewrite lookup_insert_eq. simpl.
  split; apply elem_of_app; right; by apply list_elem_of_singleton.
Qed.

Lemma bind_callback_grows run c entry : grows c (bind_callback run c entry).
Proof.
  unfold bind_callback. destruct (survey c !! entry.1);
    [apply channel_add_grows | apply grows_refl].
Qed.

Lemma bind_callbacks_grow run entries c :
  grows c (foldl (bind_callback run) c entries).
Proof.
  revert c. induction entries as [|e l IH]; intros c; simpl.
  - apply grows_refl.
  - eapply grows_trans; [apply bind_callback_grows | apply IH].
Qed.

(** The [forEach] of lines 104 to 115 subscribes one indirection for
    every entry whose name is a channel of the form instance. *)
Lemma bind_callbacks_subscribe run entries c name :
  name ∈ entries.*1 → is_Some (survey c !! name) →
  let c' := foldl (bind_callback run) c entries in
  HDynamic run name ∈ default [] (survey c' !! name)
  ∧ (name, HDynamic run name) ∈ add_calls c'.
Proof.
  revert c. induction entries as [|e l IH]; intros c Hin Hch; simpl in *.
  - by apply elem_of_nil in Hin.
  - apply elem_of_cons in Hin as [->|Hin].
    + pose proof (bind_callbacks_grow run l (bind_callback run c e)) as (_ & Hs & Ha & _ & _).
      unfold bind_callback in *. destruct Hch as [subs Hsub]. rewrite Hsub in *.
      destruct (channel_add_subscribed e.1 (HDynamic run e.1) c) as [H1 H2].
      split; [by apply Hs | by apply Ha].
    + apply IH; [done|].
      by apply (bind_callback_grows run c e).
Qed.

Lemma remove_first_other h h' (l : list Handler) :
  h ≠ h' → h ∈ l → h ∈ remove_first h' l.
Proof.
  intros Hne. induction l as [|x l IH]; simpl; [done|].
  intros [Heq|Hin]%elem_of_cons.
  - subst x. destruct (decide (h = h')); [done|]. apply elem_of_cons. by left.
  - destruct (decide (x = h')); [done|]. apply elem_of_cons. right. by apply IH.
Qed.

(** A [remove] of one handler leaves every other one subscribed. *)
Lemma channel_remove_other n n' h h' c :
  h ≠ h' → h ∈ default [] (survey c !! n) →
  h ∈ default [] (survey (channel_remove n' h' c) !! n).
Proof.
  intros Hne Hin. unfold channel_remove; simpl.
  destruct (decide (n' = n)) as [->|Hn].
  - rewrite lookup_insert_eq. simpl. by apply remove_first_other.
  - by rewrite lookup_insert_ne.
Qed.

(** The calls the cleanup makes: the built-in closures, nothing else. *)
Lemma cleanup_remove_calls k c :
  remove_calls (cleanup k c) =
    remove_calls c ++
    [("onUpdateQuestionCssClasses", cl_css k); ("onComplete", cl_complete k)] ++
    (if truthy_str (cl_url k) then [("onUploadFiles", cl_upload k)] else []).
Proof.
  unfold cleanup. destruct (truthy_str (cl_url k)); simpl.
  - by rewrite <- !app_assoc.
  - by rewrite <- !app_assoc.
Qed.

Lemma cleanup_keeps_dynamic k c n h :
  is_dynamic h = true →
  is_dynamic (cl_css k) = false → is_dynamic (cl_complete k) = false →
  is_dynamic (cl_upload k) = false →
  h ∈ default [] (survey c !! n) →
  h ∈ default [] (survey (cleanup k c) !! n).
Proof.
  intros Hd H1 H2 H3 Hin. unfold cleanup.
  assert (h ≠ cl_css k ∧ h ≠ cl_complete k ∧ h ≠ cl_upload k) as (? & ? & ?)
    by (repeat split; intros ->; congruence).
  destruct (truthy_str (cl_url k)); repeat apply channel_remove_other; done.
Qed.

(** The binding effect only adds. *)
Lemma bind_effect_grows run css url c : grows c (bind_effect run css url c).1.
Proof.
  unfold bind_effect. simpl.
  eapply grows_trans; [|apply bind_callbacks_grow].
  eapply grows_trans; [|apply channel_add_grows].
  destruct (truthy_str url).
  - eapply grows_trans; apply channel_add_grows.
  - apply channel_add_grows.
Qed.

(** What the binding effect leaves when it has run from [c]. *)
Lemma bind_effect_subscribes run css url c name :
  name ∈ (otherCallbacksRef c).*1 → is_Some (survey c !! name) →
  let c' := (bind_effect run css url c).1 in
  HDynamic run name ∈ default [] (survey c' !! name)
  ∧ (name, HDynamic run name) ∈ add_calls c'.
Proof.
  intros Hin Hch. unfold bind_effect. simpl.
  set (c1 := channel_add "onUpdateQuestionCssClasses" (HUpdateCss run css) c).
  set (c2 := if truthy_str url then channel_add "onUploadFiles" (HUploadFiles run url) c1 else c1).
  set (c3 := channel_add "onComplete" (HComplete run) c2).
  assert (grows c c3) as Hg.
  { eapply grows_trans; [|apply channel_add_grows].
    unfold c2, c1. destruct (truthy_str url).
    - eapply grows_trans; apply channel_add_grows.
    - apply channel_add_grows. }
  destruct Hg as (Hg1 & _ & _ & _ & Href).
  unfold Object_entries.
  change (otherCallbacksRef c2) with (otherCallbacksRef c3). rewrite Href.
  apply bind_callbacks_subscribe; [done | by apply Hg1].
Qed.

(** The first render: the binding effect runs from the new form instance,
    and its cleanup is kept. *)
Lemma mount_unfold channels p :
  let css := css_of p 0 in
  let c0 := {| survey := channels; onCompleteRef := onComplete p;
               otherCallbacksRef := otherCallbacks p; last_deps := None;
               last_cleanup := None; add_calls := []; remove_calls := [];
               renders := 0 |} in
  let bound := (bind_effect 0 css (uploadApiUrl p) c0).1 in
  survey (mount channels p) = survey bound
  ∧ add_calls (mount channels p) = add_calls bound
  ∧ remove_calls (mount channels p) = remove_calls bound
  ∧ otherCallbacksRef (mount channels p) = otherCallbacksRef bound
  ∧ last_deps (mount channels p) = Some (css_id css, uploadApiUrl p)
  ∧ last_cleanup (mount channels p) =
      Some {| cl_css := HUpdateCss 0 css; cl_upload := HUploadFiles 0 (uploadApiUrl p);
              cl_complete := HComplete 0; cl_url := uploadApiUrl p |}.
Proof.
  unfold mount, render, sync_refs, run_last_cleanup. simpl.
  repeat split; reflexivity.
Qed.

(** After the first render every entry of the rest props that names a
    channel has its indirection subscribed, and nothing was removed. *)
Lemma mount_subscribes channels p name :
  name ∈ (otherCallbacks p).*1 → is_Some (channels !! name) →
  HDynamic 0 name ∈ default [] (survey (mount channels p) !! name)
  ∧ (name, HDynamic 0 name) ∈ add_calls (mount channels p)
  ∧ remove_calls (mount channels p) = []
  ∧ otherCallbacksRef (mount channels p) = otherCallbacks p.
Proof.
  intros Hin Hch.
  destruct (mount_unfold channels p) as (Hs & Ha & Hr & Ho & _).
  rewrite Hs, Ha, Hr, Ho.
  match goal with |- context [bind_effect 0 ?css ?url ?c0] =>
    destruct (bind_effect_subscribes 0 css url c0 name Hin Hch) as [H1 H2];
    destruct (bind_effect_grows 0 css url c0) as (_ & _ & _ & H3 & H4)
  end.
  by rewrite H3, H4.
Qed.

Lemma count_calls_elem name h (calls : list (string * Handler)) :
  (name, h) ∈ calls → 0 < count_calls name h calls.
Proof.
  intros Hin. unfold count_calls.
  assert ((name, h) ∈ filter (λ x, x = (name, h)) calls) as Hf
    by by apply list_elem_of_filter.
  destruct (filter _ calls); [by apply elem_of_nil in Hf | simpl; lia].
Qed.

Lemma count_calls_not_elem name h (calls : list (string * Handler)) :
  (name, h) ∉ calls → count_calls name h calls = 0.
Proof.
  intros Hin. unfold count_calls.
  destruct (filter _ calls) as [|x l] eqn:Hf; [done|].
  assert (x ∈ filter (λ x, x = (name, h)) calls) as Hx
    by (rewrite Hf; apply elem_of_cons; by left).
  apply list_elem_of_filter in Hx as [-> Hx]. done.
Qed.

End Binding.

Section Lifetime.
Import TEDxSurvey.
Implicit Types (c : Component) (h : Handler) (name : string) (p : Props).

Lemma cleanup_add_calls k c : add_calls (cleanup k c) = add_calls c.
Proof. unfold cleanup. by destruct (truthy_str (cl_url k)). Qed.

(** The unmount runs the cleanup kept from the last run of the effect. *)
Lemma unmount_unfold c k :
  last_cleanup c = Some k →
  survey (unmount c) = survey (cleanup k c)
  ∧ add_calls (unmount c) = add_calls c
  ∧ remove_calls (unmount c) = remove_calls (cleanup k c).
Proof.
  intros Hk. unfold unmount, run_last_cleanup. rewrite Hk.
  by rewrite <- (cleanup_add_calls k c).
Qed.

(** A render whose dependencies are those of the previous one writes
    the refs and nothing else. *)
Lemma render_same_deps p c css :
  customCss p = Some css →
  last_deps c = Some (css_id css, uploadApiUrl p) →
  render p c =
    {| survey := survey c; onCompleteRef := onComplete p;
       otherCallbacksRef := otherCallbacks p; last_deps := last_deps c;
       last_cleanup := last_cleanup c; add_calls := add_calls c;
       remove_calls := remove_calls c; renders := S (renders c) |}.
Proof.
  intros Hcss Hdeps. unfold render, css_of. rewrite Hcss. simpl.
  by rewrite bool_decide_eq_true_2.
Qed.

(** What a subscriber calls is among what the channel calls. *)
Lemma fire_invoke name h c v :
  h ∈ default [] (survey c !! name) → v ∈ invoke h c → v ∈ fire name c.
Proof.
  intros Hh Hv. unfold fire. apply list_elem_of_join.
  exists (invoke h c). split; [done|].
  apply list_elem_of_fmap. eauto.
Qed.

(** Subscribers of a channel other than the completion channel stay of
    the component's own kind through the binding effect. *)
Lemma channel_add_own name n h c :
  (n = name → own_subscriber name h) →
  Forall (own_subscriber name) (default [] (survey c !! name)) →
  Forall (own_subscriber name) (default [] (survey (channel_add n h c) !! name)).
Proof.
  intros Hh Hall. unfold channel_add; simpl.
  destruct (decide (n = name)) as [->|Hne].
  - rewrite lookup_insert_eq. simpl. apply Forall_app. split; [done|].
    constructor; [by apply Hh | constructor].
  - by rewrite lookup_insert_ne.
Qed.

Lemma bind_callbacks_own run entries c name :
  Forall (own_subscriber name) (default [] (survey c !! name)) →
  Forall (own_subscriber name)
    (default [] (survey (foldl (bind_callback run) c entries) !! name)).
Proof.
  revert c. induction entries as [|e l IH]; intros c Hall; simpl; [done|].
  apply IH. unfold bind_callback. destruct (survey c !! e.1); [|done].
  apply channel_add_own; [|done]. by intros ->.
Qed.

Lemma bind_effect_own run css url c name :
  name ≠ "onComplete" →
  Forall (own_subscriber name) (default [] (survey c !! name)) →
  Forall (own_subscriber name)
    (default [] (survey (bind_effect run css url c).1 !! name)).
Proof.
  intros Hne Hall. unfold bind_effect. simpl.
  apply bind_callbacks_own. apply channel_add_own; [by intros <-|].
  destruct (truthy_str url); repeat apply channel_add_own; done.
Qed.

(** On such a channel every function called is the one the ref holds
    under the channel's name. *)
Lemma fire_own name c v :
  Forall (own_subscriber name) (default [] (survey c !! name)) →
  v ∈ fire name c → v = prop (otherCallbacksRef c) name.
Proof.
  intros Hall Hv. unfold fire in Hv.
  apply list_elem_of_join in Hv as (l & Hvl & Hl).
  apply list_elem_of_fmap in Hl as (h & -> & Hh).
  rewrite Forall_forall in Hall. specialize (Hall h Hh).
  destruct h as [| | |run m]; simpl in *; try done.
  - by apply elem_of_nil in Hvl.
  - by apply elem_of_nil in Hvl.
  - subst m. unfold dynamicHandler in Hvl.
    destruct (is_function _); [|by apply elem_of_nil in Hvl].
    by apply list_elem_of_singleton in Hvl.
Qed.

End Lifetime.

(** ** The claims about the component *)

(** C1 fails on the code.  For every entry of the rest props that names a
    channel of the form instance, the binding effect calls [add] with an
    indirection, and the cleanup it returns never calls [remove] for it:
    after the unmount the indirection is still subscribed, and the
    channel has more [add] than [remove] calls for that handler.  The
    cleanup calls [remove] for the built-in handlers only. *)
Theorem cleanup_leaves_dynamic_handlers channels p name :
  name ∈ (TEDxSurvey.otherCallbacks p).*1 → is_Some (channels !! name) →
  let gone := TEDxSurvey.unmount (TEDxSurvey.mount channels p) in
  let h := TEDxSurvey.HDynamic 0 name in
  (name, h) ∈ TEDxSurvey.add_calls gone
  ∧ ((name, h) ∉ TEDxSurvey.remove_calls gone)
  ∧ h ∈ default [] (TEDxSurvey.survey gone !! name)
  ∧ TEDxSurvey.count_calls name h (TEDxSurvey.remove_calls gone)
    < TEDxSurvey.count_calls name h (TEDxSurvey.add_calls gone)
  ∧ Forall (λ x, is_dynamic x.2 = false) (TEDxSurvey.remove_calls gone).
Proof.
  intros Hin Hch gone h.
  destruct (mount_subscribes channels p name Hin Hch) as (Hsub & Hadd & Hrem & _).
  destruct (mount_unfold channels p) as (_ & _ & _ & _ & _ & Hk).
  destruct (unmount_unfold _ _ Hk) as (Hs & Ha & Hr).
  fold gone in Hs, Ha, Hr.
  assert (Forall (λ x, is_dynamic x.2 = false) (TEDxSurvey.remove_calls gone)) as Hall.
  { rewrite Hr, cleanup_remove_calls, Hrem. cbn [TEDxSurvey.cl_url].
    destruct (truthy_str _); repeat constructor. }
  assert ((name, h) ∉ TEDxSurvey.remove_calls gone) as Hnot.
  { intros Hx. rewrite Forall_forall in Hall. by apply Hall in Hx. }
  split; [by rewrite Ha|]. split; [done|]. split; [|split; [|done]].
  - rewrite Hs. by apply cleanup_keeps_dynamic.
  - rewrite (count_calls_not_elem _ _ _ Hnot). apply count_calls_elem. by rewrite Ha.
Qed.

Lemma cleanup_leaves_dynamic_handlers_witness :
  TEDxSurvey.count_calls "onValueChanged" (TEDxSurvey.HDynamic 0 "onValueChanged")
    (TEDxSurvey.remove_calls (TEDxSurvey.unmount (TEDxSurvey.mount Sample.channels Sample.with_f)))
  < TEDxSurvey.count_calls "onValueChanged" (TEDxSurvey.HDynamic 0 "onValueChanged")
      (TEDxSurvey.add_calls (TEDxSurvey.unmount (TEDxSurvey.mount Sample.channels Sample.with_f))).
Proof.
  apply (cleanup_leaves_dynamic_handlers Sample.channels Sample.with_f "onValueChanged").
  - apply list_elem_of_singleton. reflexivity.
  - exists []. reflexivity.
Defined.

(** The calls at the failing input: three [add], two [remove]. *)
Lemma unmount_calls_at_sample :
  let gone := TEDxSurvey.unmount (TEDxSurvey.mount Sample.channels Sample.with_f) in
  TEDxSurvey.add_calls gone =
    [("onUpdateQuestionCssClasses",
      TEDxSurvey.HUpdateCss 0 {| TEDxSurvey.css_id := TEDxSurvey.Default 0;
                                 TEDxSurvey.css_classes := ∅ |});
     ("onComplete", TEDxSurvey.HComplete 0);
     ("onValueChanged", TEDxSurvey.HDynamic 0 "onValueChanged")]
  ∧ TEDxSurvey.remove_calls gone =
    [("onUpdateQuestionCssClasses",
      TEDxSurvey.HUpdateCss 0 {| TEDxSurvey.css_id := TEDxSurvey.Default 0;
                                 TEDxSurvey.css_classes := ∅ |});
     ("onComplete", TEDxSurvey.HComplete 0)]
  ∧ TEDxSurvey.survey gone !! "onValueChanged"
    = Some [TEDxSurvey.HDynamic 0 "onValueChanged"].
Proof. by vm_compute. Qed.

(** The indirection when the binding effect is not run again.  Each
    entry of the rest props that names a channel gets one indirection
    subscribed at bind time.  When the next render has the dependencies
    of the binding effect unchanged (the caller passes the same
    [customCss] object and the same [uploadApiUrl]), it makes no [add]
    and no [remove] call and leaves the subscribers as they are, and the
    indirection, fired afterwards, calls the function the new props hold
    under that name. *)
Theorem dynamic_handler_reads_latest channels p1 p2 css1 css2 name :
  TEDxSurvey.customCss p1 = Some css1 → TEDxSurvey.customCss p2 = Some css2 →
  TEDxSurvey.css_id css2 = TEDxSurvey.css_id css1 →
  TEDxSurvey.uploadApiUrl p2 = TEDxSurvey.uploadApiUrl p1 →
  name ∈ (TEDxSurvey.otherCallbacks p1).*1 → is_Some (channels !! name) →
  let c1 := TEDxSurvey.mount channels p1 in
  let c2 := TEDxSurvey.render p2 c1 in
  let h := TEDxSurvey.HDynamic 0 name in
  let latest := prop (TEDxSurvey.otherCallbacks p2) name in
  h ∈ default [] (TEDxSurvey.survey c1 !! name)
  ∧ TEDxSurvey.survey c2 = TEDxSurvey.survey c1
  ∧ TEDxSurvey.add_calls c2 = TEDxSurvey.add_calls c1
  ∧ TEDxSurvey.remove_calls c2 = TEDxSurvey.remove_calls c1
  ∧ TEDxSurvey.invoke h c2 = (if is_function latest then [latest] else [])
  ∧ (is_function latest = true → latest ∈ TEDxSurvey.fire name c2)
  ∧ (name ≠ "onComplete" → channels !! name = Some [] →
     ∀ v, v ∈ TEDxSurvey.fire name c2 → v = latest).
Proof.
  intros Hc1 Hc2 Hid Hurl Hin Hch c1 c2 h latest.
  destruct (mount_subscribes channels p1 name Hin Hch) as (Hsub & _ & _ & _).
  destruct (mount_unfold channels p1) as (_ & _ & _ & _ & Hdeps & _).
  assert (c2 = {| TEDxSurvey.survey := TEDxSurvey.survey c1;
                  TEDxSurvey.onCompleteRef := TEDxSurvey.onComplete p2;
                  TEDxSurvey.otherCallbacksRef := TEDxSurvey.otherCallbacks p2;
                  TEDxSurvey.last_deps := TEDxSurvey.last_deps c1;
                  TEDxSurvey.last_cleanup := TEDxSurvey.last_cleanup c1;
                  TEDxSurvey.add_calls := TEDxSurvey.add_calls c1;
                  TEDxSurvey.remove_calls := TEDxSurvey.remove_calls c1;
                  TEDxSurvey.renders := S (TEDxSurvey.renders c1) |}) as Hr.
  { apply (render_same_deps p2 c1 css2 Hc2). fold c1 in Hdeps. rewrite Hdeps.
    unfold TEDxSurvey.css_of. rewrite Hc1. simpl. by rewrite Hid, Hurl. }
  assert (TEDxSurvey.invoke h c2 = (if is_function latest then [latest] else [])) as Hinv
    by by rewrite Hr.
  split; [done|]. rewrite Hr at 1 2 3. simpl.
  repeat split; [done| |].
  - intros Hf. apply (fire_invoke name h).
    + by rewrite Hr.
    + rewrite Hinv, Hf. by apply list_elem_of_singleton.
  - intros Hne Hfresh v Hv.
    assert (Forall (own_subscriber name)
              (default [] (TEDxSurvey.survey c1 !! name))) as Hown.
    { destruct (mount_unfold channels p1) as (Hs & _). fold c1 in Hs. rewrite Hs.
      apply bind_effect_own; [done|]. simpl. rewrite Hfresh. constructor. }
    apply (fire_own name c2 v) in Hv; [by rewrite Hr in Hv|].
    rewrite Hr. exact Hown.
Qed.

Lemma dynamic_handler_reads_latest_witness :
  TEDxSurvey.add_calls (TEDxSurvey.render Sample.styled_g
                          (TEDxSurvey.mount Sample.channels Sample.styled_f))
    = TEDxSurvey.add_calls (TEDxSurvey.mount Sample.channels Sample.styled_f)
  ∧ TEDxSurvey.invoke (TEDxSurvey.HDynamic 0 "onValueChanged")
      (TEDxSurvey.render Sample.styled_g
         (TEDxSurvey.mount Sample.channels Sample.styled_f)) = [VFun 2].
Proof.
  destruct (dynamic_handler_reads_latest Sample.channels Sample.styled_f
              Sample.styled_g Sample.css Sample.css "onValueChanged"
              eq_refl eq_refl eq_refl eq_refl) as (_ & _ & H1 & _ & H2 & _ & _).
  - apply list_elem_of_singleton. reflexivity.
  - exists []. reflexivity.
  - split; [exact H1 | exact H2].
Defined.

(** C6 fails on the code.  Two renders that differ in the handler
    alone, [customCss] left out: the default [{}] of line 17 is a new
    object in each render and stands in the dependencies of the binding
    effect, so the effect runs again although the refs of lines 36 to 42
    are there to spare it that.  [add] is called three more times, once
    more on the channel of the handler, and the channel, fired, calls
    the new function twice. *)
Lemma rerender_with_default_css_subscribes_again :
  let c1 := TEDxSurvey.mount Sample.channels Sample.with_f in
  let c2 := TEDxSurvey.render Sample.with_g c1 in
  TEDxSurvey.customCss Sample.with_g = TEDxSurvey.customCss Sample.with_f
  ∧ TEDxSurvey.uploadApiUrl Sample.with_g = TEDxSurvey.uploadApiUrl Sample.with_f
  ∧ length (TEDxSurvey.add_calls c1) = 3
  ∧ length (TEDxSurvey.add_calls c2) = 6
  ∧ TEDxSurvey.count_calls "onValueChanged" (TEDxSurvey.HDynamic 1 "onValueChanged")
      (TEDxSurvey.add_calls c2) = 1
  ∧ TEDxSurvey.survey c2 !! "onValueChanged"
    = Some [TEDxSurvey.HDynamic 0 "onValueChanged";
            TEDxSurvey.HDynamic 1 "onValueChanged"]
  ∧ TEDxSurvey.fire "onValueChanged" c1 = [VFun 1]
  ∧ TEDxSurvey.fire "onValueChanged" c2 = [VFun 2; VFun 2].
Proof. by vm_compute. Qed.

(** * Further properties of the server code *)

Section ServerState.
Variable env : Env.
Implicit Types (uri : option string) (w : World) (data : JsObject)
  (options : Server.Options).

(** The connection attempts of one call of dbConnect: none, or one. *)
Lemma dbConnect_attempts uri w :
  ∃ l, connect_log (Mongodb.dbConnect env uri w).2 = connect_log w ++ l
     ∧ (length l ≤ 1)%nat
     ∧ (is_Some (conn (cached w)) → l = [])
     ∧ (is_Some (promise (cached w)) → l = []).
Proof.
  assert (∀ l0 : list string,
            ∃ l, l0 = l0 ++ l ∧ (length l ≤ 1)%nat
               ∧ (is_Some (conn (cached w)) → l = [])
               ∧ (is_Some (promise (cached w)) → l = [])) as Hnone.
  { intros l0. exists []. rewrite app_nil_r. repeat split; simpl; auto with lia. }
  unfold Mongodb.dbConnect, Mongodb.mongoose_connect.
  destruct (truthy_str _); run_m; [|apply Hnone].
  destruct (conn (cached w)) as [c|] eqn:Hc; simpl; [apply Hnone|].
  destruct (promise (cached w)) as [[c|e]|] eqn:Hp; simpl; [apply Hnone..|].
  eexists [_]. destruct (connect_ok env _); simpl; repeat split;
    try done; by intros [? [=]].
Qed.

Lemma dbConnect_cache_wf uri w :
  cache_wf w → cache_wf (Mongodb.dbConnect env uri w).2.
Proof.
  unfold cache_wf, Mongodb.dbConnect, Mongodb.mongoose_connect, Mongodb.await.
  destruct (truthy_str _); run_m; [|done].
  destruct (conn (cached w)) as [c|] eqn:Hc; simpl; [by rewrite Hc|].
  destruct (promise (cached w)) as [[c|e]|] eqn:Hp; simpl; [done..|].
  destruct (connect_ok env _); simpl; by rewrite ?Hc.
Qed.

(** saveToMongoDB leaves the connection cache and the attempts as its
    first dbConnect left them. *)
Lemma saveToMongoDB_cache data cd uri w :
  cached (Server.saveToMongoDB env data cd uri w).2
    = cached (Mongodb.dbConnect env uri w).2
  ∧ connect_log (Server.saveToMongoDB env data cd uri w).2
    = connect_log (Mongodb.dbConnect env uri w).2.
Proof.
  destruct (Mongodb.dbConnect env uri w) as [[c|e0] w1] eqn:Hc.
  - rewrite (saveToMongoDB_connected env data cd uri w c w1 Hc).
    repeat case_match; done.
  - by rewrite (saveToMongoDB_disconnected env data cd uri w e0 w1 Hc).
Qed.

(** The sheet step leaves the connection cache and the store alone. *)
Lemma appendToGoogleSheet_cache sid rng key values token w :
  let w' := (Server.appendToGoogleSheet env sid rng key values token w).2 in
  cached w' = cached w ∧ connect_log w' = connect_log w
  ∧ collection w' = collection w ∧ next_oid w' = next_oid w.
Proof.
  simpl. rewrite appendToGoogleSheet_run. by case_match.
Qed.

(** handleSurveySubmission leaves the connection cache and the attempts
    as the first dbConnect of its save left them, or untouched. *)
Lemma handleSurveySubmission_cache data options w :
  let w' := (Server.handleSurveySubmission env data options w).2 in
  let w0 := if truthy_flag (Server.mongo options)
            then (Mongodb.dbConnect env (Server.mongoUri options) w).2 else w in
  cached w' = cached w0 ∧ connect_log w' = connect_log w0.
Proof.
  simpl. destruct (truthy_flag (Server.mongo options)) eqn:Hm.
  - destruct (saveToMongoDB_cache data (Server.checkDuplicate options)
                (Server.mongoUri options) w) as [H1 H2].
    destruct (Server.saveToMongoDB env data (Server.checkDuplicate options)
                (Server.mongoUri options) w) as [[doc|e] w1] eqn:Hs; simpl in *.
    + rewrite (handleSurveySubmission_save_returns env data options w doc w1 Hm Hs).
      destruct (Server.googleSheet options) as [gs|]; [|done].
      pose proof (appendToGoogleSheet_cache (Server.spreadsheetId gs) (Server.range gs)
                    (Server.apiKey gs) [Object_values data] (Server.accessToken gs) w1)
        as (A & B & _).
      simpl in A, B. destruct (Server.appendToGoogleSheet _ _ _ _ _ _ _) as [[r|e] w2];
        simpl in *; split; congruence.
    + by rewrite (handleSurveySubmission_save_throws env data options w e w1 Hm Hs).
  - rewrite (handleSurveySubmission_no_mongo env data options w Hm).
    destruct (Server.googleSheet options) as [gs|]; [|done].
    pose proof (appendToGoogleSheet_cache (Server.spreadsheetId gs) (Server.range gs)
                  (Server.apiKey gs) [Object_values data] (Server.accessToken gs) w)
      as (A & B & _).
    simpl in A, B. by destruct (Server.appendToGoogleSheet _ _ _ _ _ _ _) as [[r|e] w2].
Qed.

End ServerState.

(** X1. Once a call of dbConnect has returned a connection, every later
    call that has a connection string returns that same connection and
    makes no attempt, whatever URI it is given: the process stays on the
    database it connected to first. *)
Theorem dbConnect_keeps_first_connection env env2 uri1 uri2 w c w1 :
  Mongodb.dbConnect env uri1 w = (Ok c, w1) →
  truthy_str (str_or uri2 (MONGODB_URI env2)) = true →
  Mongodb.dbConnect env2 uri2 w1 = (Ok c, w1)
  ∧ (conn (cached w) = None → promise (cached w) = None →
     Some (conn_uri c) = str_or uri1 (MONGODB_URI env)
     ∧ connect_log w1 = connect_log w ++ [conn_uri c]).
Proof.
  intros Hc Hu. split.
  - apply dbConnect_cached; [done|]. by eapply dbConnect_ok_cached.
  - intros Hn Hp. pose proof (dbConnect_ok_uri env uri1 w c w1 Hc) as Ht.
    destruct (str_or uri1 (MONGODB_URI env)) as [cs|] eqn:Hs; [|done].
    destruct (connect_ok env cs) eqn:Hk.
    + rewrite (dbConnect_fresh env uri1 w cs Hs Ht Hn Hp Hk) in Hc.
      by injection Hc as <- <-.
    + by rewrite (dbConnect_rejected env uri1 w cs Hs Ht Hn Hp Hk) in Hc.
Qed.

Lemma dbConnect_keeps_first_connection_witness :
  ∃ w1, Mongodb.dbConnect Sample.env (Some "mongodb://a/one") Sample.fresh
          = (Ok {| conn_uri := "mongodb://a/one" |}, w1)
      ∧ Mongodb.dbConnect Sample.env (Some "mongodb://b/two") w1
          = (Ok {| conn_uri := "mongodb://a/one" |}, w1)
      ∧ connect_log w1 = ["mongodb://a/one"].
Proof.
  eexists. split; [reflexivity|].
  destruct (dbConnect_keeps_first_connection Sample.env Sample.env
              (Some "mongodb://a/one") (Some "mongodb://b/two") Sample.fresh
              _ _ eq_refl eq_refl) as (H1 & H2).
  split; [exact H1|]. exact (proj2 (H2 eq_refl eq_refl)).
Defined.

(** X2. Between calls the connection cache is either empty or holds a
    connection together with the fulfilled promise it came from.
    dbConnect and handleSurveySubmission keep it so, whether they return
    or throw: no rejected promise and no half-set cache is ever left. *)
Theorem connection_cache_invariant env w :
  cache_wf w →
  (∀ uri, cache_wf (Mongodb.dbConnect env uri w).2)
  ∧ (∀ data cd uri, cache_wf (Server.saveToMongoDB env data cd uri w).2)
  ∧ (∀ data options, cache_wf (Server.handleSurveySubmission env data options w).2).
Proof.
  intros Hwf. split; [|split].
  - intros uri. by apply dbConnect_cache_wf.
  - intros data cd uri. unfold cache_wf.
    rewrite (proj1 (saveToMongoDB_cache env data cd uri w)).
    by apply dbConnect_cache_wf.
  - intros data options. unfold cache_wf.
    rewrite (proj1 (handleSurveySubmission_cache env data options w)).
    destruct (truthy_flag _); [by apply dbConnect_cache_wf | done].
Qed.

Lemma connection_cache_invariant_witness :
  cache_wf (Server.handleSurveySubmission Sample.env_down Sample.ann Sample.both
              Sample.fresh).2
  ∧ cache_wf (Server.handleSurveySubmission Sample.env Sample.ann Sample.both
                Sample.fresh).2.
Proof.
  split.
  - apply (connection_cache_invariant Sample.env_down Sample.fresh I).
  - apply (connection_cache_invariant Sample.env Sample.fresh I).
Defined.

(** X3. One call of handleSurveySubmission makes at most one connection
    attempt, although it reaches dbConnect up to twice; it makes none
    when the document store is not enabled, and none when a connection
    is cached. *)
Theorem handleSurveySubmission_connects_once env data options w :
  ∃ l, connect_log (Server.handleSurveySubmission env data options w).2
         = connect_log w ++ l
     ∧ (length l ≤ 1)%nat
     ∧ (truthy_flag (Server.mongo options) = false → l = [])
     ∧ (is_Some (conn (cached w)) → l = []).
Proof.
  destruct (handleSurveySubmission_cache env data options w) as [_ Hl].
  simpl in Hl. rewrite Hl.
  destruct (truthy_flag (Server.mongo options)).
  - destruct (dbConnect_attempts env (Server.mongoUri options) w)
      as (l & H1 & H2 & H3 & _).
    exists l. by repeat split.
  - exists []. rewrite app_nil_r. repeat split; simpl; auto with lia.
Qed.

Section ServerStore.
Variable env : Env.
Implicit Types (uri : option string) (w : World) (data : JsObject)
  (options : Server.Options).

(** The document a save returns, and where it went. *)
Lemma saveToMongoDB_ok_doc data cd uri w doc w' :
  Server.saveToMongoDB env data cd uri w = (Ok doc, w') →
  doc = {| _id := next_oid w; surveyId := None;
           email := js_or (Server.email_of data) (VStr "anonymous");
           data := data; createdAt := now env |}
  ∧ collection w' = collection w ++ [doc]
  ∧ ∃ c, Mongodb.dbConnect env uri w = (Ok c, (Mongodb.dbConnect env uri w).2)
       ∧ conn (cached w') = Some c.
Proof.
  intros Hs.
  destruct (saveToMongoDB_ok_store env data cd uri w doc w' Hs) as (Hcol & _).
  destruct (Mongodb.dbConnect env uri w) as [[c|e0] w1] eqn:Hc;
    [|by rewrite (saveToMongoDB_disconnected env data cd uri w e0 w1 Hc) in Hs].
  pose proof (dbConnect_ok_cached env uri w c w1 Hc) as Hconn.
  rewrite (saveToMongoDB_connected env data cd uri w c w1 Hc) in Hs.
  split; [|split; [done|exists c; split; [done|]]];
    repeat case_match; simplify_eq; done.
Qed.

(** A save that went through the duplicate check: there was a key, the
    count was answered, and no document had that key. *)
Lemma saveToMongoDB_checked_ok data cd uri w doc w' :
  truthy_flag cd = true →
  Server.saveToMongoDB env data cd uri w = (Ok doc, w') →
  truthy (Server.email_of data) = true ∧ count_ok env = true
  ∧ Server.matching (Server.email_of data) (collection w) = []
  ∧ email doc = Server.email_of data.
Proof.
  intros Hcd Hs.
  destruct (saveToMongoDB_ok_doc data cd uri w doc w' Hs) as (Hdoc & _).
  destruct (Mongodb.dbConnect env uri w) as [[c|e0] w1] eqn:Hc;
    [|by rewrite (saveToMongoDB_disconnected env data cd uri w e0 w1 Hc) in Hs].
  rewrite (saveToMongoDB_connected env data cd uri w c w1 Hc), Hcd in Hs.
  destruct (truthy (Server.email_of data)) eqn:He; [|done].
  destruct (count_ok env); [|done].
  destruct (Server.matching _ _) eqn:Hm; [|done].
  repeat split. rewrite Hdoc. simpl. unfold js_or. by rewrite He.
Qed.

(** No matching document: the key is not among the stored emails. *)
Lemma matching_nil_not_elem e (docs : list SurveyResponse) :
  Server.matching e docs = [] → e ∉ email <$> docs.
Proof.
  intros Hm Hin. apply list_elem_of_fmap in Hin as (d & -> & Hd).
  assert (d ∈ Server.matching (email d) docs) as Hx
    by by apply list_elem_of_filter.
  rewrite Hm in Hx. by apply elem_of_nil in Hx.
Qed.

(** The key of a payload is in the store of a connected process: the
    submission with the duplicate check is refused, and changes nothing. *)
Lemma resubmission_refused data options w c doc :
  truthy_flag (Server.mongo options) = true →
  truthy_flag (Server.checkDuplicate options) = true →
  conn (cached w) = Some c →
  truthy_str (str_or (Server.mongoUri options) (MONGODB_URI env)) = true →
  count_ok env = true →
  truthy (Server.email_of data) = true →
  doc ∈ collection w → email doc = Server.email_of data →
  Server.handleSurveySubmission env data options w
    = (Throw (ErrorAbout Server.duplicate_prefix (Server.email_of data)), w).
Proof.
  intros Hm Hcd Hc Hu Hk He Hd Hde.
  apply handleSurveySubmission_save_throws; [done|].
  apply (saveToMongoDB_duplicate env data _ _ w c w); try done.
  - by apply dbConnect_cached.
  - intros Hnil. apply matching_nil_not_elem in Hnil. apply Hnil.
    apply list_elem_of_fmap. eauto.
Qed.

(** The world checkDuplicateEmail leaves is the one its dbConnect left. *)
Lemma checkDuplicateEmail_world e uri w :
  (Server.checkDuplicateEmail env e uri w).2 = (Mongodb.dbConnect env uri w).2.
Proof.
  destruct (Mongodb.dbConnect env uri w) as [[c|err] w1] eqn:Hc.
  - destruct (count_ok env) eqn:Hk.
    + by erewrite checkDuplicateEmail_connected.
    + by erewrite checkDuplicateEmail_count_fails.
  - by erewrite checkDuplicateEmail_disconnected.
Qed.

(** With a connection cached, dbConnect changes nothing, return or throw. *)
Lemma dbConnect_cached_world uri w :
  is_Some (conn (cached w)) → (Mongodb.dbConnect env uri w).2 = w.
Proof.
  intros [c Hc]. destruct (truthy_str (str_or uri (MONGODB_URI env))) eqn:Hu.
  - by rewrite (dbConnect_cached env uri w c Hu Hc).
  - by rewrite (dbConnect_no_uri env uri w Hu).
Qed.

End ServerStore.

(** X4. For a payload whose key is a string, the document saveToMongoDB
    has stored carries a non-empty string as its email: [data.email]
    when that is truthy, else [data.Email] when that is truthy, else
    ['anonymous']; its data is the whole payload, it has no surveyId,
    and it is the one document added to the store. *)
Theorem saveToMongoDB_stored_email env payload cd uri w doc w' :
  string_keyed payload →
  Server.saveToMongoDB env payload cd uri w = (Ok doc, w') →
  is_str (email doc) = true ∧ truthy (email doc) = true
  ∧ email doc = (if truthy (prop payload "email") then prop payload "email"
                 else if truthy (prop payload "Email") then prop payload "Email"
                 else VStr "anonymous")
  ∧ data doc = payload ∧ surveyId doc = None
  ∧ collection w' = collection w ++ [doc].
Proof.
  intros Hstr Hs.
  destruct (saveToMongoDB_ok_doc env payload cd uri w doc w' Hs) as (-> & Hcol & _).
  assert (is_str (js_or (Server.email_of payload) (VStr "anonymous")) = true) as H0.
  { unfold js_or. destruct (truthy (Server.email_of payload)) eqn:He; [by apply Hstr|done]. }
  split; [done|]. clear H0 Hstr.
  split; [|split; [|done]]; simpl; unfold Server.email_of, js_or;
    destruct (truthy (prop payload "email")) eqn:H1; rewrite ?H1; try done;
    destruct (truthy (prop payload "Email")) eqn:H2; by rewrite ?H2.
Qed.

Lemma saveToMongoDB_stored_email_witness :
  ∃ doc w', Server.saveToMongoDB Sample.env Sample.bo None None Sample.fresh
              = (Ok doc, w')
          ∧ email doc = VStr "b@y.org" ∧ truthy (email doc) = true.
Proof.
  eexists _, _. split; [vm_compute; reflexivity|].
  destruct (saveToMongoDB_stored_email Sample.env Sample.bo None None Sample.fresh
              _ _ (λ _, eq_refl) eq_refl) as (_ & H1 & H2 & _).
  split; [exact H2 | exact H1].
Defined.

(** X5. Under the duplicate check, saves of payloads keyed by strings
    keep the emails of the store what the schema makes them, strings,
    and pairwise distinct: if the stored emails were distinct strings
    before a save with [checkDuplicate] set, they are after it. *)
Theorem saveToMongoDB_keeps_emails_distinct env data cd uri w doc w' :
  truthy_flag cd = true →
  string_keyed data →
  Forall (λ v, is_str v = true) (email <$> collection w) →
  NoDup (email <$> collection w) →
  Server.saveToMongoDB env data cd uri w = (Ok doc, w') →
  Forall (λ v, is_str v = true) (email <$> collection w')
  ∧ NoDup (email <$> collection w').
Proof.
  intros Hcd Hstr Hall Hnd Hs.
  destruct (saveToMongoDB_checked_ok env data cd uri w doc w' Hcd Hs)
    as (Hk & _ & Hm & He).
  destruct (saveToMongoDB_ok_store env data cd uri w doc w' Hs) as (-> & _).
  rewrite fmap_app. split.
  - apply Forall_app. split; [done|]. constructor; [|constructor].
    rewrite He. by apply Hstr.
  - apply NoDup_app. split; [done|]. split.
    + intros x Hx [->|[]%elem_of_nil]%elem_of_cons. rewrite He in Hx.
      by apply matching_nil_not_elem in Hm.
    + apply NoDup_singleton.
Qed.

Lemma saveToMongoDB_keeps_emails_distinct_witness :
  NoDup (email <$> collection
           (Server.saveToMongoDB Sample.env Sample.bo (Some true) None
              Sample.with_ann).2).
Proof.
  eapply (saveToMongoDB_keeps_emails_distinct Sample.env Sample.bo (Some true) None
            Sample.with_ann).
  - reflexivity.
  - intros _. reflexivity.
  - repeat constructor.
  - apply NoDup_singleton.
  - vm_compute. reflexivity.
Defined.

(** X6. A submission that returned, with the document store enabled and
    the duplicate check set, cannot be repeated: the same payload
    submitted again with the same options is refused with the duplicate
    error about its key, and the refusal changes nothing. *)
Theorem resubmission_is_refused env data options w r w' :
  truthy_flag (Server.mongo options) = true →
  truthy_flag (Server.checkDuplicate options) = true →
  Server.handleSurveySubmission env data options w = (Ok r, w') →
  Server.handleSurveySubmission env data options w'
    = (Throw (ErrorAbout Server.duplicate_prefix (Server.email_of data)), w').
Proof.
  intros Hm Hcd Hr.
  destruct (Server.saveToMongoDB env data (Server.checkDuplicate options)
              (Server.mongoUri options) w) as [[doc|e] w1] eqn:Hs;
    [|by rewrite (handleSurveySubmission_save_throws env data options w e w1 Hm Hs) in Hr].
  destruct (saveToMongoDB_checked_ok env data _ _ w doc w1 Hcd Hs) as (He & Hk & _ & Hde).
  destruct (saveToMongoDB_ok_doc env data _ _ w doc w1 Hs) as (_ & Hcol & c & Hc & Hconn).
  pose proof (dbConnect_ok_uri env _ w c _ Hc) as Hu.
  assert (cached w' = cached w1 ∧ collection w' = collection w1) as [Hca Hco].
  { rewrite (handleSurveySubmission_save_returns env data options w doc w1 Hm Hs) in Hr.
    destruct (Server.googleSheet options) as [gs|]; [|by injection Hr as <- <-].
    pose proof (appendToGoogleSheet_cache env (Server.spreadsheetId gs) (Server.range gs)
                  (Server.apiKey gs) [Object_values data] (Server.accessToken gs) w1)
      as (A & _ & B & _). simpl in A, B.
    destruct (Server.appendToGoogleSheet _ _ _ _ _ _ _) as [[res|e] w2]; [|done].
    by injection Hr as <- <-. }
  apply (resubmission_refused env data options w' c doc); try done.
  - by rewrite Hca.
  - rewrite Hco, Hcol. apply elem_of_app. right. by apply list_elem_of_singleton.
Qed.

Lemma resubmission_is_refused_witness :
  ∃ r w', Server.handleSurveySubmission Sample.env Sample.bo Sample.both_checked
            Sample.with_ann = (Ok r, w')
        ∧ Server.handleSurveySubmission Sample.env Sample.bo Sample.both_checked w'
          = (Throw (ErrorAbout Server.duplicate_prefix (VStr "b@y.org")), w').
Proof.
  eexists _, _. split; [vm_compute; reflexivity|].
  apply (resubmission_is_refused Sample.env Sample.bo Sample.both_checked
           Sample.with_ann _ _ eq_refl eq_refl eq_refl).
Defined.

(** X7. There is no rollback.  When the save has stored the document and
    the sheet service then refuses the row, handleSurveySubmission throws
    the sheet's error with the document left in the store and the result
    object lost; under the duplicate check a later retry of the same
    payload, with the sheet service back, is refused as a duplicate, so
    the row is never appended. *)
Theorem sheet_failure_keeps_document env data options gs w doc w1 :
  truthy_flag (Server.mongo options) = true →
  Server.googleSheet options = Some gs →
  Server.saveToMongoDB env data (Server.checkDuplicate options)
    (Server.mongoUri options) w = (Ok doc, w1) →
  let req := {| req_spreadsheetId := Server.spreadsheetId gs;
                req_range := Server.range gs; req_apiKey := Server.apiKey gs;
                req_values := [Object_values data];
                req_accessToken := Server.accessToken gs |} in
  append_ok env req = false →
  let w' := Server.log_append req w1 in
  Server.handleSurveySubmission env data options w = (Throw (Rejection Sheets), w')
  ∧ collection w' = collection w ++ [doc]
  ∧ sheet_rows w' = sheet_rows w
  ∧ (truthy_flag (Server.checkDuplicate options) = true →
     ∀ env2, MONGODB_URI env2 = MONGODB_URI env → count_ok env2 = true →
     Server.handleSurveySubmission env2 data options w'
       = (Throw (ErrorAbout Server.duplicate_prefix (Server.email_of data)), w')).
Proof.
  intros Hm Hg Hs req Ha w'.
  destruct (saveToMongoDB_ok_store env data _ _ w doc w1 Hs) as (Hcol & _ & Hrows).
  split; [|split; [done|split; [done|]]].
  - rewrite (handleSurveySubmission_save_returns env data options w doc w1 Hm Hs), Hg.
    rewrite appendToGoogleSheet_run. fold req. by rewrite Ha.
  - intros Hcd env2 Hu2 Hk2.
    destruct (saveToMongoDB_checked_ok env data _ _ w doc w1 Hcd Hs) as (He & _ & _ & Hde).
    destruct (saveToMongoDB_ok_doc env data _ _ w doc w1 Hs) as (_ & _ & c & Hc & Hconn).
    pose proof (dbConnect_ok_uri env _ w c _ Hc) as Hu.
    apply (resubmission_refused env2 data options w' c doc); try done.
    + by rewrite Hu2.
    + unfold w'. simpl. rewrite Hcol. apply elem_of_app. right.
      by apply list_elem_of_singleton.
Qed.

Lemma sheet_failure_keeps_document_witness :
  ∃ doc w', Server.handleSurveySubmission Sample.env_sheet_down Sample.bo
              Sample.both_checked Sample.with_ann = (Throw (Rejection Sheets), w')
          ∧ collection w' = collection Sample.with_ann ++ [doc]
          ∧ Server.handleSurveySubmission Sample.env Sample.bo Sample.both_checked w'
            = (Throw (ErrorAbout Server.duplicate_prefix (VStr "b@y.org")), w').
Proof.
  eexists _, _.
  destruct (sheet_failure_keeps_document Sample.env_sheet_down Sample.bo
              Sample.both_checked Sample.sheet Sample.with_ann _ _
              eq_refl eq_refl eq_refl eq_refl) as (H1 & H2 & _ & H3).
  split; [exact H1|]. split; [exact H2|].
  exact (H3 eq_refl Sample.env eq_refl eq_refl).
Defined.

(** X8. The first submission of a key reaches both sinks in order.  With
    both sinks enabled and the duplicate check set, a payload whose key
    is a non-empty string in no stored document gives, when every
    collaborator answers, one new document keyed by it and one new row
    of its values, and the result holds the document under [mongo] and
    the append result under [sheets]. *)
Theorem first_submission_reaches_both_sinks env payload options gs w c w1 :
  truthy_flag (Server.mongo options) = true →
  truthy_flag (Server.checkDuplicate options) = true →
  Server.googleSheet options = Some gs →
  Mongodb.dbConnect env (Server.mongoUri options) w = (Ok c, w1) →
  is_str (Server.email_of payload) = true →
  truthy (Server.email_of payload) = true →
  count_ok env = true →
  Server.matching (Server.email_of payload) (collection w) = [] →
  let doc := {| _id := next_oid w; surveyId := None;
                email := Server.email_of payload; data := payload;
                createdAt := now env |} in
  let req := {| req_spreadsheetId := Server.spreadsheetId gs;
                req_range := Server.range gs; req_apiKey := Server.apiKey gs;
                req_values := [Object_values payload];
                req_accessToken := Server.accessToken gs |} in
  save_ok env doc = true → append_ok env req = true →
  ∃ w', Server.handleSurveySubmission env payload options w
          = (Ok {| Server.results_mongo := Some doc;
                   Server.results_sheets := Some {| appended := req |} |}, w')
      ∧ collection w' = collection w ++ [doc]
      ∧ sheet_rows w' = sheet_rows w ++ [Object_values payload]
      ∧ sheet_log w' = sheet_log w ++ [req].
Proof.
  intros Hm Hcd Hg Hc _ He Hk Hnil doc req Hsave Happ.
  pose proof (saveToMongoDB_connected env payload (Server.checkDuplicate options)
                (Server.mongoUri options) w c w1 Hc) as Hs.
  simpl in Hs. rewrite Hcd, He, Hk, Hnil in Hs. simpl in Hs.
  unfold js_or in Hs. rewrite He in Hs. fold doc in Hs. rewrite Hsave in Hs.
  destruct (saveToMongoDB_ok_store env payload _ _ w doc _ Hs) as (Hcol & Hlog & Hrows).
  eexists. split; [|split; [|split]].
  - rewrite (handleSurveySubmission_save_returns env payload options w doc _ Hm Hs), Hg.
    rewrite appendToGoogleSheet_run. fold req. by rewrite Happ.
  - simpl. exact Hcol.
  - simpl. by rewrite <- Hrows.
  - simpl. by rewrite <- Hlog.
Qed.

Lemma first_submission_reaches_both_sinks_witness :
  ∃ r w', Server.handleSurveySubmission Sample.env Sample.bo Sample.both_checked
            Sample.with_ann = (Ok r, w')
        ∧ email <$> collection w' = [VStr "a@x.com"; VStr "b@y.org"]
        ∧ sheet_rows w' = [[VStr "Bo"; VStr "b@y.org"]].
Proof.
  destruct (first_submission_reaches_both_sinks Sample.env Sample.bo
              Sample.both_checked Sample.sheet Sample.with_ann
              {| conn_uri := "mongodb://localhost/tedx" |} Sample.with_ann
              eq_refl eq_refl eq_refl eq_refl eq_refl eq_refl eq_refl eq_refl eq_refl
              eq_refl)
    as (w' & H1 & H2 & H3 & _).
  eexists _, w'. split; [exact H1|]. split.
  - by rewrite H2.
  - exact H3.
Defined.

(** X9. checkDuplicateEmail only reads the store.  It never changes the
    collection, the identifiers or the sheet; the one thing it can change
    is the connection cache, exactly as its dbConnect does, so with a
    connection cached it changes nothing at all, whether it returns or
    throws. *)
Theorem checkDuplicateEmail_reads_only env e uri w :
  let w' := (Server.checkDuplicateEmail env e uri w).2 in
  w' = (Mongodb.dbConnect env uri w).2
  ∧ collection w' = collection w ∧ next_oid w' = next_oid w
  ∧ sheet_log w' = sheet_log w ∧ sheet_rows w' = sheet_rows w
  ∧ (is_Some (conn (cached w)) → w' = w).
Proof.
  simpl. rewrite checkDuplicateEmail_world.
  destruct (dbConnect_sinks env uri w) as (H1 & H2 & H3).
  repeat split; try done.
  - apply dbConnect_next_oid.
  - apply dbConnect_cached_world.
Qed.

(** * Further properties of the bucket cache and the upload *)

Section BucketCache.
Import GcpBucket.
Variable lib : Library.
Implicit Types (config : Config) (s : State).

(** Another name cached, or none: the test of line 11 fails. *)
Lemma cache_miss_name config s :
  name <$> cachedBucket s ≠ Some (bucketName config) → cache_hit config s = false.
Proof.
  intros Hne. destruct (cache_hit config s) eqn:Hh; [|done].
  apply cache_hit_iff in Hh as (st & b & _ & Hb & Hn).
  rewrite Hb in Hne. simpl in Hne. by rewrite Hn in Hne.
Qed.

(** The state a call that returns leaves. *)
Lemma getBucket_returns config s b s' :
  getBucket lib config s = (Ok b, s') →
  cachedBucket s' = Some b ∧ is_Some (cachedStorage s')
  ∧ (if cache_hit config s then name b = bucketName config ∧ s' = s
     else bucket lib (bucketName config) = Ok (name b)
          ∧ constructed s' = S (constructed s)
          ∧ storage_credentials (bucket_storage b) = credentials config)
  ∧ (bucket_cache_wf s → cachedStorage s' = Some (bucket_storage b)).
Proof.
  intros Hg. destruct (cache_hit config s) eqn:Hh.
  - apply cache_hit_iff in Hh as Hh'. destruct Hh' as (st & b0 & Hst & Hb & Hn).
    destruct (getBucket_hit lib config s Hh) as (b' & Hb' & Hg').
    rewrite Hg' in Hg. injection Hg as <- <-. simplify_eq.
    repeat split; eauto. intros Hwf. unfold bucket_cache_wf in Hwf.
    by rewrite <- Hwf, Hb.
  - rewrite (getBucket_miss lib config s Hh) in Hg. unfold construct in Hg.
    destruct (bucket lib (bucketName config)) as [n|e]; [|done].
    injection Hg as <- <-. simpl. repeat split; eauto.
Qed.

(** The state a call that throws leaves. *)
Lemma getBucket_throws config s e s' :
  getBucket lib config s = (Throw e, s') →
  cache_hit config s = false
  ∧ bucket lib (bucketName config) = Throw e
  ∧ cachedBucket s' = cachedBucket s
  ∧ cachedStorage s' = Some {| storage_id := constructed s;
                               storage_credentials := credentials config |}
  ∧ constructed s' = S (constructed s).
Proof.
  intros Hg. destruct (cache_hit config s) eqn:Hh.
  - destruct (getBucket_hit lib config s Hh) as (b' & Hb' & Hg'). congruence.
  - rewrite (getBucket_miss lib config s Hh) in Hg. unfold construct in Hg.
    destruct (bucket lib (bucketName config)) as [n|e']; [done|].
    by injection Hg as <- <-.
Qed.

(** A run of calls for one name that the cache never comes to hold:
    every call builds a client. *)
Lemma getBucket_seq_misses configs s n :
  (∀ m, bucket lib n = Ok m → m ≠ n) →
  Forall (λ c, bucketName c = n) configs →
  name <$> cachedBucket s ≠ Some n →
  constructed (getBucket_seq lib configs s).2 = constructed s + length configs.
Proof.
  intros Hrw Hall. revert s. induction Hall as [|c cs Hc _ IH]; intros s Hne; simpl.
  - lia.
  - assert (cache_hit c s = false) as Hh by (apply cache_miss_name; by rewrite Hc).
    rewrite (getBucket_miss lib c s Hh).
    destruct (construct_run lib c s) as (Hk & _ & Hb). simpl in Hk, Hb.
    destruct (construct lib c s) as [r s1] eqn:Hcons. simpl in *.
    specialize (IH s1).
    destruct (getBucket_seq lib cs s1) as [rs s2]. simpl in *.
    rewrite IH; [lia|]. rewrite Hc in Hb.
    destruct (bucket lib n) as [m|e] eqn:Hl.
    + destruct Hb as [_ ->]. simpl. intros [= ->]. by apply (Hrw n).
    + destruct Hb as [_ ->]. done.
Qed.

End BucketCache.

(** X10. When getBucket returns, the handle returned is the one it
    leaves cached, beside a client: on a hit it is the handle cached
    before, whose name is the name asked for, and nothing changes; else
    it is a new handle, under the name the library gives, on a new client
    with the credentials asked for.  When the cached handle belonged to
    the cached client before a call that returns, the handle returned
    belongs to the client cached after it.  When the library refuses the
    name, getBucket throws its error with a new client cached all the
    same and the handle cached before kept. *)
Theorem getBucket_leaves_what_it_returns lib config s :
  (∀ b s', GcpBucket.getBucket lib config s = (Ok b, s') →
     GcpBucket.cachedBucket s' = Some b ∧ is_Some (GcpBucket.cachedStorage s')
     ∧ (if GcpBucket.cache_hit config s
        then GcpBucket.name b = GcpBucket.bucketName config ∧ s' = s
        else GcpBucket.bucket lib (GcpBucket.bucketName config) = Ok (GcpBucket.name b)
             ∧ GcpBucket.constructed s' = S (GcpBucket.constructed s)
             ∧ GcpBucket.storage_credentials (GcpBucket.bucket_storage b)
               = GcpBucket.credentials config)
     ∧ (bucket_cache_wf s →
        bucket_cache_wf s'
        ∧ GcpBucket.cachedStorage s' = Some (GcpBucket.bucket_storage b)))
  ∧ (∀ e s', GcpBucket.getBucket lib config s = (Throw e, s') →
     GcpBucket.bucket lib (GcpBucket.bucketName config) = Throw e
     ∧ GcpBucket.cachedBucket s' = GcpBucket.cachedBucket s
     ∧ GcpBucket.cachedStorage s'
       = Some {| GcpBucket.storage_id := GcpBucket.constructed s;
                 GcpBucket.storage_credentials := GcpBucket.credentials config |}
     ∧ GcpBucket.constructed s' = S (GcpBucket.constructed s)).
Proof.
  split.
  - intros b s' Hg.
    destruct (getBucket_returns lib config s b s' Hg) as (H1 & H2 & H3 & H4).
    split; [done|]. split; [done|]. split; [done|]. intros Hwf. split.
    + unfold bucket_cache_wf. by rewrite H1, (H4 Hwf).
    + by apply H4.
  - intros e s' Hg.
    by destruct (getBucket_throws lib config s e s' Hg) as (_ & ? & ? & ? & ?).
Qed.

Lemma getBucket_leaves_what_it_returns_witness :
  GcpBucket.cachedBucket
    (GcpBucket.getBucket Sample.library Sample.uploads_url GcpBucket.init).2
    = Some {| GcpBucket.name := "uploads";
              GcpBucket.bucket_storage :=
                {| GcpBucket.storage_id := 0;
                   GcpBucket.storage_credentials := VObj 1 |} |}
  ∧ GcpBucket.cachedBucket
      (GcpBucket.getBucket Sample.library Sample.unnamed
         (GcpBucket.getBucket Sample.library Sample.uploads_url GcpBucket.init).2).2
    = GcpBucket.cachedBucket
        (GcpBucket.getBucket Sample.library Sample.uploads_url GcpBucket.init).2.
Proof.
  split.
  - apply (proj1 (getBucket_leaves_what_it_returns Sample.library Sample.uploads_url
                    GcpBucket.init) _ _ eq_refl).
  - apply (proj2 (getBucket_leaves_what_it_returns Sample.library Sample.unnamed
                    (GcpBucket.getBucket Sample.library Sample.uploads_url
                       GcpBucket.init).2) _ _ eq_refl).
Defined.

(** X11. The cache compares the name asked for with the name of the
    handle, which the library made.  Over a run of calls that all ask
    for one name, starting with that name not cached: when the library
    keeps the name as it is, one client is built and every later call
    reuses it; when the library rewrites the name, or refuses it, no
    call ever hits and every call builds a new client. *)
Theorem getBucket_seq_constructions lib configs s n :
  Forall (λ c, GcpBucket.bucketName c = n) configs →
  GcpBucket.name <$> GcpBucket.cachedBucket s ≠ Some n →
  GcpBucket.constructed (GcpBucket.getBucket_seq lib configs s).2
    = GcpBucket.constructed s
      + match GcpBucket.bucket lib n with
        | Ok m => if String.eqb m n then min 1 (length configs) else length configs
        | Throw _ => length configs
        end.
Proof.
  intros Hall Hne.
  destruct (GcpBucket.bucket lib n) as [m|e] eqn:Hl.
  - destruct (String.eqb_spec m n) as [->|Hmn].
    + destruct Hall as [|c cs Hc Hcs]; simpl; [lia|].
      assert (GcpBucket.cache_hit c s = false) as Hh
        by (apply cache_miss_name; by rewrite Hc).
      rewrite (getBucket_miss lib c s Hh). unfold GcpBucket.construct.
      rewrite Hc, Hl.
      match goal with |- context [GcpBucket.getBucket_seq lib cs ?s1] =>
        rewrite (getBucket_seq_hits lib cs s1
                   {| GcpBucket.name := n;
                      GcpBucket.bucket_storage :=
                        {| GcpBucket.storage_id := GcpBucket.constructed s;
                           GcpBucket.storage_credentials := GcpBucket.credentials c |} |}
                   n eq_refl (ex_intro _ _ eq_refl) eq_refl Hcs)
      end.
      simpl. lia.
    + rewrite (getBucket_seq_misses lib configs s n); try done.
      intros m' Hm'. congruence.
  - rewrite (getBucket_seq_misses lib configs s n); try done.
    intros m' Hm'. congruence.
Qed.

Lemma getBucket_seq_constructions_witness :
  GcpBucket.constructed
    (GcpBucket.getBucket_seq Sample.library
       [Sample.uploads_url; Sample.uploads_url; Sample.uploads_url]
       GcpBucket.init).2 = 3
  ∧ GcpBucket.constructed
      (GcpBucket.getBucket_seq Sample.library
         [Sample.uploads_a; Sample.uploads_b; Sample.uploads_a]
         GcpBucket.init).2 = 1
  ∧ GcpBucket.constructed
      (GcpBucket.getBucket_seq Sample.library [Sample.unnamed; Sample.unnamed]
         GcpBucket.init).2 = 2.
Proof.
  split; [|split].
  - apply (getBucket_seq_constructions Sample.library
             [Sample.uploads_url; Sample.uploads_url; Sample.uploads_url]
             GcpBucket.init "gs://uploads/"); [by repeat constructor|done].
  - apply (getBucket_seq_constructions Sample.library
             [Sample.uploads_a; Sample.uploads_b; Sample.uploads_a]
             GcpBucket.init "uploads"); [by repeat constructor|done].
  - apply (getBucket_seq_constructions Sample.library [Sample.unnamed; Sample.unnamed]
             GcpBucket.init ""); [by repeat constructor|done].
Defined.

(** X12. uploadToGCP writes through whatever handle getBucket returns.
    For a bucket name the library keeps as it is: after one upload to
    the bucket, successful or refused, an upload to the same bucket
    under another configuration constructs nothing and, when it goes
    through, stores its object through the handle of the first upload;
    when the first upload built that handle, the object is written with
    the first configuration's credentials, not its own. *)
Theorem uploadToGCP_reuses_first_client lib gcs1 gcs2 buf1 buf2 n1 n2 cfg1 cfg2 cl :
  GcpBucket.bucket lib (GcpBucket.bucketName cfg1) = Ok (GcpBucket.bucketName cfg1) →
  GcpBucket.bucketName cfg2 = GcpBucket.bucketName cfg1 →
  ∃ b1, (GcpBucket.getBucket lib cfg1 (Server.cloud_cache cl)).1 = Ok b1
  ∧ let out1 := Server.uploadToGCP lib gcs1 buf1 n1 cfg1 cl in
    let out2 := Server.uploadToGCP lib gcs2 buf2 n2 cfg2 out1.2 in
    let file := {| Server.file_name := Server.handle_name gcs2 n2;
                   Server.file_bucket := b1 |} in
    Server.cloud_cache out2.2 = Server.cloud_cache out1.2
    ∧ (Server.put_ok gcs2 file buf2 = true →
       out2.1 = Ok (Server.handle_name gcs2 n2)
       ∧ Server.cloud_objects out2.2
         = Server.cloud_objects out1.2
           ++ [{| Server.obj_file := file; Server.obj_content := buf2 |}])
    ∧ (Server.put_ok gcs2 file buf2 = false →
       out2.1 = Throw (Rejection Network)
       ∧ Server.cloud_objects out2.2 = Server.cloud_objects out1.2)
    ∧ (GcpBucket.cache_hit cfg1 (Server.cloud_cache cl) = false →
       GcpBucket.storage_credentials (GcpBucket.bucket_storage b1)
         = GcpBucket.credentials cfg1).
Proof.
  intros Hkeep Hn.
  pose proof (getBucket_then_hit lib cfg1 cfg2 (Server.cloud_cache cl) Hkeep Hn) as Hh.
  destruct (GcpBucket.getBucket lib cfg1 (Server.cloud_cache cl)) as [r1 s1] eqn:Hg1.
  simpl in Hh.
  destruct (getBucket_hit lib cfg2 s1 Hh) as (b1 & Hb1 & Hg2).
  assert (r1 = Ok b1) as ->.
  { destruct r1 as [b|e].
    - destruct (getBucket_returns lib cfg1 _ b s1 Hg1) as (Hb & _). congruence.
    - destruct (getBucket_throws lib cfg1 _ e s1 Hg1) as (_ & He & _). congruence. }
  exists b1. split; [done|]. intros out1 out2 file.
  assert (Server.cloud_cache out1.2 = s1) as Hc1.
  { unfold out1, Server.uploadToGCP. rewrite Hg1. by case_match. }
  assert (out2 = if Server.put_ok gcs2 file buf2
                 then (Ok (Server.handle_name gcs2 n2),
                       {| Server.cloud_cache := s1;
                          Server.cloud_objects := Server.cloud_objects out1.2 ++
                            [{| Server.obj_file := file; Server.obj_content := buf2 |}] |})
                 else (Throw (Rejection Network),
                       {| Server.cloud_cache := s1;
                          Server.cloud_objects := Server.cloud_objects out1.2 |})) as ->.
  { unfold out2, Server.uploadToGCP. by rewrite Hc1, Hg2. }
  rewrite Hc1.
  split; [by case_match|]. split; [by intros ->|]. split; [by intros ->|].
  intros Hmiss. by destruct (getBucket_returns lib cfg1 _ b1 s1 Hg1) as (_ & _ & Hr & _);
    rewrite Hmiss in Hr; destruct Hr as (_ & _ & ?).
Qed.

Lemma uploadToGCP_reuses_first_client_witness :
  let out1 := Server.uploadToGCP Sample.library Sample.gcs_down [] "a.pdf"
                Sample.uploads_a Sample.cloud in
  let out2 := Server.uploadToGCP Sample.library Sample.gcs [] "b.pdf"
                Sample.uploads_b out1.2 in
  out1.1 = Throw (Rejection Network)
  ∧ out2.1 = Ok "b.pdf"
  ∧ (GcpBucket.storage_credentials ∘ GcpBucket.bucket_storage ∘ Server.file_bucket
       ∘ Server.obj_file) <$> Server.cloud_objects out2.2 = [VObj 1].
Proof.
  intros out1 out2.
  destruct (uploadToGCP_reuses_first_client Sample.library Sample.gcs_down Sample.gcs
              [] [] "a.pdf" "b.pdf" Sample.uploads_a Sample.uploads_b Sample.cloud
              eq_refl eq_refl) as (b1 & Hb1 & _ & H1 & _ & _).
  injection Hb1 as <-.
  destruct (H1 eq_refl) as (H3 & H4).
  split; [reflexivity|]. split; [exact H3|].
  unfold out2, out1. rewrite H4. reflexivity.
Defined.

(** * Further properties of the component *)

Section Channels.
Import TEDxSurvey.
Implicit Types (c : Component) (h : Handler) (name n m : string) (p : Props).

Lemma channel_add_lookup_eq n h c :
  survey (channel_add n h c) !! n = Some (default [] (survey c !! n) ++ [h]).
Proof. unfold channel_add; simpl. by rewrite lookup_insert_eq. Qed.

Lemma channel_add_lookup_ne n m h c :
  n ≠ m → survey (channel_add n h c) !! m = survey c !! m.
Proof. intros Hne. unfold channel_add; simpl. by rewrite lookup_insert_ne. Qed.

Lemma channel_remove_lookup_eq n h c :
  survey (channel_remove n h c) !! n
    = Some (remove_first h (default [] (survey c !! n))).
Proof. unfold channel_remove; simpl. by rewrite lookup_insert_eq. Qed.

Lemma channel_remove_lookup_ne n m h c :
  n ≠ m → survey (channel_remove n h c) !! m = survey c !! m.
Proof. intros Hne. unfold channel_remove; simpl. by rewrite lookup_insert_ne. Qed.

Lemma remove_first_last h (l : list Handler) :
  h ∉ l → remove_first h (l ++ [h]) = l.
Proof.
  induction l as [|x l IH]; simpl; intros Hin.
  - by rewrite decide_True.
  - rewrite decide_False; [|intros ->; apply Hin; by left].
    rewrite IH; [done|]. intros Hl. apply Hin. by right.
Qed.

(** An entry that names no channel binds nothing. *)
Lemma bind_callbacks_skip run entries c :
  (∀ e, e ∈ entries → survey c !! e.1 = None) →
  foldl (bind_callback run) c entries = c.
Proof.
  revert c. induction entries as [|e l IH]; intros c Hnone; simpl; [done|].
  unfold bind_callback at 2. rewrite (Hnone e) by by left.
  apply IH. intros e' He'. apply Hnone. by right.
Qed.

(** A channel no entry names keeps its subscribers through the [forEach]. *)
Lemma bind_callbacks_other run entries c name :
  name ∉ entries.*1 →
  survey (foldl (bind_callback run) c entries) !! name = survey c !! name.
Proof.
  revert c. induction entries as [|e l IH]; intros c Hnot; simpl; [done|].
  rewrite IH; [|intros Hin; apply Hnot; simpl; by right].
  unfold bind_callback. destruct (survey c !! e.1); [|done].
  apply channel_add_lookup_ne. intros Heq. apply Hnot. simpl. rewrite Heq. by left.
Qed.

(** A channel one entry names gets one more subscriber, the indirection
    of this run. *)
Lemma bind_callbacks_once run entries c name subs :
  NoDup entries.*1 → name ∈ entries.*1 →
  survey c !! name = Some subs →
  survey (foldl (bind_callback run) c entries) !! name
    = Some (subs ++ [HDynamic run name]).
Proof.
  revert c. induction entries as [|e l IH]; intros c Hnd Hin Hs; simpl in *.
  - by apply elem_of_nil in Hin.
  - apply NoDup_cons in Hnd as [Hfresh Hnd].
    destruct (decide (e.1 = name)) as [Heq|Hne].
    + rewrite bind_callbacks_other; [|by rewrite <- Heq].
      unfold bind_callback. rewrite Heq, Hs.
      by rewrite channel_add_lookup_eq, Hs.
    + apply IH; [done| |].
      * apply elem_of_cons in Hin as [?|?]; [congruence|done].
      * unfold bind_callback. destruct (survey c !! e.1); [|done].
        by rewrite channel_add_lookup_ne.
Qed.

(** The binding effect leaves the refs as they are. *)
Lemma bind_callbacks_onCompleteRef run entries c :
  onCompleteRef (foldl (bind_callback run) c entries) = onCompleteRef c.
Proof.
  revert c. induction entries as [|e l IH]; intros c; simpl; [done|].
  rewrite IH. unfold bind_callback. by destruct (survey c !! e.1).
Qed.

Lemma bind_callbacks_renders run entries c :
  renders (foldl (bind_callback run) c entries) = renders c.
Proof.
  revert c. induction entries as [|e l IH]; intros c; simpl; [done|].
  rewrite IH. unfold bind_callback. by destruct (survey c !! e.1).
Qed.

Lemma bind_effect_refs run css url c :
  onCompleteRef (bind_effect run css url c).1 = onCompleteRef c
  ∧ otherCallbacksRef (bind_effect run css url c).1 = otherCallbacksRef c
  ∧ renders (bind_effect run css url c).1 = renders c.
Proof.
  split; [|split].
  - unfold bind_effect. simpl. rewrite bind_callbacks_onCompleteRef. simpl.
    by destruct (truthy_str url).
  - by destruct (bind_effect_grows run css url c) as (_ & _ & _ & _ & ?).
  - unfold bind_effect. simpl. rewrite bind_callbacks_renders. simpl.
    by destruct (truthy_str url).
Qed.

(** The subscribers of the completion channel after the binding effect,
    when no entry names it. *)
Lemma bind_effect_complete run css url c :
  "onComplete" ∉ (otherCallbacksRef c).*1 →
  survey (bind_effect run css url c).1 !! "onComplete"
    = Some (default [] (survey c !! "onComplete") ++ [HComplete run]).
Proof.
  intros Hnot. unfold bind_effect. cbn [fst].
  rewrite bind_callbacks_other.
  - rewrite channel_add_lookup_eq. do 3 f_equal.
    destruct (truthy_str url); by rewrite !channel_add_lookup_ne.
  - unfold Object_entries.
    replace (otherCallbacksRef _) with (otherCallbacksRef c); [done|].
    simpl. by destruct (truthy_str url).
Qed.

(** The subscribers of any other channel after the binding effect: one
    more indirection when an entry names it. *)
Lemma bind_effect_dynamic run css url c name subs :
  name ∉ builtin_channels →
  NoDup (otherCallbacksRef c).*1 → name ∈ (otherCallbacksRef c).*1 →
  survey c !! name = Some subs →
  survey (bind_effect run css url c).1 !! name = Some (subs ++ [HDynamic run name]).
Proof.
  intros Hb Hnd Hin Hs. unfold bind_effect. cbn [fst].
  assert (name ≠ "onUpdateQuestionCssClasses" ∧ name ≠ "onUploadFiles"
          ∧ name ≠ "onComplete") as (H1 & H2 & H3).
  { unfold builtin_channels in Hb. repeat split; intros ->; apply Hb;
      repeat (first [by left | right]). }
  unfold Object_entries.
  replace (otherCallbacksRef (channel_add _ _ _))
    with (otherCallbacksRef c) by (simpl; by destruct (truthy_str url)).
  apply bind_callbacks_once; [done..|].
  rewrite channel_add_lookup_ne by done.
  destruct (truthy_str url); by rewrite !channel_add_lookup_ne.
Qed.

(** The cleanup on the completion channel, and on a channel that is not
    one of the three. *)
Lemma cleanup_complete k c :
  survey (cleanup k c) !! "onComplete"
    = Some (remove_first (cl_complete k) (default [] (survey c !! "onComplete"))).
Proof.
  unfold cleanup. destruct (truthy_str (cl_url k)).
  - rewrite channel_remove_lookup_ne by done.
    rewrite channel_remove_lookup_eq. by rewrite channel_remove_lookup_ne.
  - rewrite channel_remove_lookup_eq. by rewrite channel_remove_lookup_ne.
Qed.

Lemma cleanup_other k c name :
  name ∉ builtin_channels → survey (cleanup k c) !! name = survey c !! name.
Proof.
  intros Hb.
  assert (name ≠ "onUpdateQuestionCssClasses" ∧ name ≠ "onUploadFiles"
          ∧ name ≠ "onComplete") as (H1 & H2 & H3).
  { unfold builtin_channels in Hb. repeat split; intros ->; apply Hb;
      repeat (first [by left | right]). }
  unfold cleanup. destruct (truthy_str (cl_url k));
    by rewrite !channel_remove_lookup_ne.
Qed.

(** One render, when a dependency of the binding effect has changed. *)
Lemma render_changed p c :
  let css := css_of p (renders c) in
  last_deps c ≠ Some (css_id css, uploadApiUrl p) →
  let bound := (bind_effect (renders c) css (uploadApiUrl p)
                  (sync_refs p (run_last_cleanup c))).1 in
  survey (render p c) = survey bound
  ∧ add_calls (render p c) = add_calls bound
  ∧ remove_calls (render p c) = remove_calls bound
  ∧ otherCallbacksRef (render p c) = otherCallbacks p
  ∧ onCompleteRef (render p c) = onComplete p
  ∧ last_deps (render p c) = Some (css_id css, uploadApiUrl p)
  ∧ last_cleanup (render p c)
    = Some {| cl_css := HUpdateCss (renders c) css;
              cl_upload := HUploadFiles (renders c) (uploadApiUrl p);
              cl_complete := HComplete (renders c); cl_url := uploadApiUrl p |}
  ∧ renders (render p c) = S (renders c).
Proof.
  intros css Hne bound.
  assert (renders (sync_refs p (run_last_cleanup c)) = renders c) as Hren.
  { unfold sync_refs, run_last_cleanup, cleanup. simpl.
    destruct (last_cleanup c) as [k|]; [|done]. by destruct (truthy_str (cl_url k)). }
  destruct (bind_effect_refs (renders c) css (uploadApiUrl p)
              (sync_refs p (run_last_cleanup c))) as (Ho & Hr & Hn).
  fold bound in Ho, Hr, Hn. rewrite Hren in Hn.
  unfold render. fold css. rewrite bool_decide_eq_false_2 by done. cbn [negb].
  rewrite Hren. unfold bind_effect in *. cbn [fst] in *. simpl.
  repeat split; try done. by f_equal.
Qed.

(** One render, when the dependencies are those of the previous one. *)
Lemma render_unchanged p c :
  last_deps c = Some (css_id (css_of p (renders c)), uploadApiUrl p) →
  render p c =
    {| survey := survey c; onCompleteRef := onComplete p;
       otherCallbacksRef := otherCallbacks p; last_deps := last_deps c;
       last_cleanup := last_cleanup c; add_calls := add_calls c;
       remove_calls := remove_calls c; renders := S (renders c) |}.
Proof.
  intros Hdeps. unfold render. by rewrite bool_decide_eq_true_2.
Qed.

Lemma run_last_cleanup_other c name :
  name ∉ builtin_channels → survey (run_last_cleanup c) !! name = survey c !! name.
Proof.
  intros Hb. unfold run_last_cleanup. destruct (last_cleanup c); [|done].
  by apply cleanup_other.
Qed.

End Channels.

Section Renders.
Import TEDxSurvey.
Implicit Types (c : Component) (h : Handler) (name : string) (p : Props)
  (ps : list Props).

(** A render that runs the binding effect again, on the completion
    channel: whatever handler the cleanup took away, the channel ends
    with the one completion handler of this run. *)
Lemma render_changed_completion p c :
  last_deps c ≠ Some (css_id (css_of p (renders c)), uploadApiUrl p) →
  survey (run_last_cleanup c) !! "onComplete" = Some [] →
  "onComplete" ∉ (otherCallbacks p).*1 →
  ∃ k, last_cleanup (render p c) = Some k
     ∧ cl_complete k = HComplete (renders c)
     ∧ survey (render p c) !! "onComplete" = Some [HComplete (renders c)]
     ∧ onCompleteRef (render p c) = onComplete p.
Proof.
  intros Hne Hs Hnot.
  destruct (render_changed p c Hne) as (Hsv & _ & _ & _ & Hoc & _ & Hk & _).
  eexists. split; [exact Hk|]. split; [done|]. split; [|done].
  rewrite Hsv, bind_effect_complete; [|done].
  cbn [sync_refs survey]. by rewrite Hs.
Qed.

(** One render keeps the completion channel at one handler. *)
Lemma render_completion p c r k :
  last_cleanup c = Some k → cl_complete k = HComplete r →
  survey c !! "onComplete" = Some [HComplete r] →
  "onComplete" ∉ (otherCallbacks p).*1 →
  ∃ r' k', last_cleanup (render p c) = Some k'
         ∧ cl_complete k' = HComplete r'
         ∧ survey (render p c) !! "onComplete" = Some [HComplete r']
         ∧ onCompleteRef (render p c) = onComplete p.
Proof.
  intros Hk Hc Hs Hnot.
  destruct (decide (last_deps c
                    = Some (css_id (css_of p (renders c)), uploadApiUrl p)))
    as [Heq|Hne].
  - rewrite (render_unchanged p c Heq). simpl. by exists r, k.
  - exists (renders c). apply render_changed_completion; [done| |done].
    unfold run_last_cleanup. rewrite Hk, cleanup_complete, Hs, Hc. simpl.
    by rewrite decide_True.
Qed.

Lemma render_all_completion ps c p r k :
  last_cleanup c = Some k → cl_complete k = HComplete r →
  survey c !! "onComplete" = Some [HComplete r] →
  onCompleteRef c = onComplete p →
  Forall (λ p, "onComplete" ∉ (otherCallbacks p).*1) ps →
  ∃ r', survey (render_all c ps) !! "onComplete" = Some [HComplete r']
      ∧ onCompleteRef (render_all c ps) = onComplete (default p (last ps)).
Proof.
  revert c p r k. induction ps as [|q ps IH]; intros c p r k Hk Hc Hs Ho Hall.
  - exists r. by simpl.
  - apply Forall_cons in Hall as [Hq Hall].
    destruct (render_completion q c r k Hk Hc Hs Hq) as (r' & k' & Hk' & Hc' & Hs' & Ho').
    destruct (IH (render q c) q r' k' Hk' Hc' Hs' Ho' Hall) as (r'' & H1 & H2).
    exists r''. split; [done|]. unfold render_all in *. simpl.
    rewrite H2, last_cons. by destruct (last ps).
Qed.

(** One render with [customCss] left out, on a channel an entry names:
    the binding effect runs again and subscribes one more indirection. *)
Lemma render_default_css_dynamic p c name subs :
  name ∉ builtin_channels →
  customCss p = None →
  NoDup (otherCallbacks p).*1 → name ∈ (otherCallbacks p).*1 →
  (last_deps c = None
   ∨ ∃ url, last_deps c = Some (Default (pred (renders c)), url) ∧ 0 < renders c) →
  survey c !! name = Some subs →
  survey (render p c) !! name = Some (subs ++ [HDynamic (renders c) name])
  ∧ renders (render p c) = S (renders c)
  ∧ last_deps (render p c) = Some (Default (renders c), uploadApiUrl p)
  ∧ otherCallbacksRef (render p c) = otherCallbacks p.
Proof.
  intros Hb Hcss Hnd Hin Hdeps Hs.
  assert (css_id (css_of p (renders c)) = Default (renders c)) as Hid
    by (unfold css_of; by rewrite Hcss).
  assert (last_deps c ≠ Some (css_id (css_of p (renders c)), uploadApiUrl p)) as Hne.
  { rewrite Hid. destruct Hdeps as [->|(url & -> & Hpos)]; [done|].
    intros [= Heq _]. lia. }
  destruct (render_changed p c Hne) as (Hsv & _ & _ & Ho & _ & Hd & _ & Hr).
  rewrite Hid in Hd. split; [|done].
  rewrite Hsv. apply bind_effect_dynamic; try done.
  cbn [sync_refs survey]. by rewrite run_last_cleanup_other.
Qed.

Lemma render_all_default_css_dynamic ps c p name :
  name ∉ builtin_channels →
  Forall (λ p, customCss p = None ∧ NoDup (otherCallbacks p).*1
               ∧ name ∈ (otherCallbacks p).*1) ps →
  (last_deps c = None
   ∨ ∃ url, last_deps c = Some (Default (pred (renders c)), url) ∧ 0 < renders c) →
  survey c !! name = Some ((λ r, HDynamic r name) <$> seq 0 (renders c)) →
  otherCallbacksRef c = otherCallbacks p →
  survey (render_all c ps) !! name
    = Some ((λ r, HDynamic r name) <$> seq 0 (renders c + length ps))
  ∧ otherCallbacksRef (render_all c ps) = otherCallbacks (default p (last ps)).
Proof.
  intros Hb. revert c p. induction ps as [|q ps IH]; intros c p Hall Hdeps Hs Ho.
  - simpl. by rewrite Nat.add_0_r.
  - apply Forall_cons in Hall as [(Hcss & Hnd & Hin) Hall].
    destruct (render_default_css_dynamic q c name _ Hb Hcss Hnd Hin Hdeps Hs)
      as (Hs' & Hr' & Hd' & Ho').
    destruct (IH (render q c) q Hall) as (H1 & H2).
    + right. exists (uploadApiUrl q). rewrite Hr'. simpl. split; [done|lia].
    + rewrite Hs', Hr', seq_S, fmap_app. done.
    + done.
    + unfold render_all in *. simpl. rewrite H1, H2, Hr'.
      split; [do 3 f_equal; lia | rewrite last_cons; by destruct (last ps)].
Qed.

Lemma join_invoke_indirections name c (runs : list nat) :
  mjoin ((λ h, invoke h c) <$> ((λ r, HDynamic r name) <$> runs))
    = mjoin (replicate (length runs) (dynamicHandler name c)).
Proof.
  induction runs as [|r rs IH]; [done|].
  change (invoke (HDynamic r name) c ++ mjoin ((λ h, invoke h c) <$>
            ((λ r, HDynamic r name) <$> rs))
          = dynamicHandler name c
            ++ mjoin (replicate (length rs) (dynamicHandler name c))).
  by rewrite IH.
Qed.

(** The channel calls what its indirections call, one after the other. *)
Lemma fire_indirections name c (runs : list nat) :
  survey c !! name = Some ((λ r, HDynamic r name) <$> runs) →
  fire name c = mjoin (replicate (length runs) (dynamicHandler name c)).
Proof.
  intros Hs. unfold fire. rewrite Hs. apply join_invoke_indirections.
Qed.

Lemma join_replicate_singleton {A} n (x : A) :
  mjoin (replicate n [x]) = replicate n x.
Proof. induction n as [|n IH]; simpl; [done|]. by rewrite IH. Qed.

Lemma join_replicate_nil {A} n : mjoin (replicate n (@nil A)) = [].
Proof. induction n as [|n IH]; simpl; done. Qed.

End Renders.

(** X13. With no endpoint, handleUploadFiles does nothing: no request,
    the options object untouched.  With an endpoint it sends exactly one
    request, to that endpoint, carrying every file of the event once, in
    order, under the field [files]; whatever the endpoint answers there
    is no second request. *)
Theorem handleUploadFiles_single_request url options response :
  let out := TEDxSurvey.handleUploadFiles url options response in
  (truthy_str url = false → out = (options, []))
  ∧ (∀ u, url = Some u → truthy_str url = true →
     TEDxSurvey.fetches out.2
       = [TEDxSurvey.Fetch u ((λ file, ("files", file)) <$> TEDxSurvey.files options)]
     ∧ TEDxSurvey.files out.1 = TEDxSurvey.files options).
Proof.
  simpl. split.
  - intros Hu. unfold TEDxSurvey.handleUploadFiles. by rewrite Hu.
  - intros u -> Hu. unfold TEDxSurvey.handleUploadFiles. rewrite Hu.
    destruct response as [|[d|]]; by simpl.
Qed.

Lemma handleUploadFiles_single_request_witness :
  TEDxSurvey.fetches
    (TEDxSurvey.handleUploadFiles (Some "/api/upload") Sample.upload_event
       TEDxSurvey.NetworkFailure).2
    = [TEDxSurvey.Fetch "/api/upload" [("files", "cv.pdf")]]
  ∧ TEDxSurvey.handleUploadFiles None Sample.upload_event TEDxSurvey.NetworkFailure
    = (Sample.upload_event, []).
Proof.
  split.
  - apply (proj2 (handleUploadFiles_single_request (Some "/api/upload")
                    Sample.upload_event TEDxSurvey.NetworkFailure)
             "/api/upload" eq_refl eq_refl).
  - apply (proj1 (handleUploadFiles_single_request None Sample.upload_event
                    TEDxSurvey.NetworkFailure) eq_refl).
Defined.

(** X14. The completion handler is never duplicated and always current.
    On a form instance whose completion channel had no subscriber, after
    the first render and any sequence of further renders, whichever of
    them ran the binding effect again, the channel holds exactly one
    completion handler, and firing it calls the [onComplete] of the last
    render, once, or nothing when that render passed none. *)
Theorem completion_handler_stays_single channels p0 ps :
  channels !! "onComplete" = Some [] →
  Forall (λ p, "onComplete" ∉ (TEDxSurvey.otherCallbacks p).*1) (p0 :: ps) →
  let c := TEDxSurvey.render_all (TEDxSurvey.mount channels p0) ps in
  (∃ r, TEDxSurvey.survey c !! "onComplete" = Some [TEDxSurvey.HComplete r])
  ∧ TEDxSurvey.fire "onComplete" c
    = match TEDxSurvey.onComplete (default p0 (last ps)) with
      | Some f => [VFun f]
      | None => []
      end.
Proof.
  intros Hch [Hp0 Hps]%Forall_cons c.
  destruct (render_changed_completion p0
              {| TEDxSurvey.survey := channels;
                 TEDxSurvey.onCompleteRef := TEDxSurvey.onComplete p0;
                 TEDxSurvey.otherCallbacksRef := TEDxSurvey.otherCallbacks p0;
                 TEDxSurvey.last_deps := None; TEDxSurvey.last_cleanup := None;
                 TEDxSurvey.add_calls := []; TEDxSurvey.remove_calls := [];
                 TEDxSurvey.renders := 0 |})
    as (k & Hk & Hc & Hs & Ho); [done..|].
  destruct (render_all_completion ps (TEDxSurvey.mount channels p0) p0 0 k
              Hk Hc Hs Ho Hps) as (r & H1 & H2).
  fold c in H1, H2. split; [eauto|].
  unfold TEDxSurvey.fire. rewrite H1. simpl.
  unfold TEDxSurvey.handleComplete. rewrite H2. apply app_nil_r.
Qed.

Lemma completion_handler_stays_single_witness :
  TEDxSurvey.fire "onComplete"
    (TEDxSurvey.render_all (TEDxSurvey.mount Sample.channels Sample.plain)
       [Sample.plain_again; Sample.plain_again]) = [VFun 6].
Proof.
  apply (completion_handler_stays_single Sample.channels Sample.plain
           [Sample.plain_again; Sample.plain_again] eq_refl).
  repeat constructor; by intros [[=]|[]%elem_of_nil]%elem_of_cons.
Defined.

(** X15. Indirections pile up.  When the caller leaves [customCss] out,
    every render runs the binding effect again and none of the earlier
    indirections is removed: on a channel that an entry of the rest props
    names in every render, after [n] renders there are [n] indirections,
    and one event calls the caller's current handler [n] times. *)
Theorem default_css_renders_pile_up channels p0 ps name :
  name ∉ builtin_channels →
  channels !! name = Some [] →
  Forall (λ p, TEDxSurvey.customCss p = None
               ∧ NoDup (TEDxSurvey.otherCallbacks p).*1
               ∧ name ∈ (TEDxSurvey.otherCallbacks p).*1) (p0 :: ps) →
  let c := TEDxSurvey.render_all (TEDxSurvey.mount channels p0) ps in
  let latest := prop (TEDxSurvey.otherCallbacks (default p0 (last ps))) name in
  TEDxSurvey.survey c !! name
    = Some ((λ r, TEDxSurvey.HDynamic r name) <$> seq 0 (S (length ps)))
  ∧ TEDxSurvey.fire name c
    = if is_function latest then replicate (S (length ps)) latest else [].
Proof.
  intros Hb Hch Hall c latest.
  destruct (render_all_default_css_dynamic (p0 :: ps)
              {| TEDxSurvey.survey := channels;
                 TEDxSurvey.onCompleteRef := TEDxSurvey.onComplete p0;
                 TEDxSurvey.otherCallbacksRef := TEDxSurvey.otherCallbacks p0;
                 TEDxSurvey.last_deps := None; TEDxSurvey.last_cleanup := None;
                 TEDxSurvey.add_calls := []; TEDxSurvey.remove_calls := [];
                 TEDxSurvey.renders := 0 |} p0 name Hb Hall)
    as (H1 & H2); [by left|done|done|].
  change (TEDxSurvey.render_all _ (p0 :: ps)) with c in H1, H2.
  change (0 + length (p0 :: ps)) with (S (length ps)) in H1. split; [done|].
  rewrite (fire_indirections name c _ H1).
  rewrite length_seq.
  unfold TEDxSurvey.dynamicHandler. rewrite H2.
  replace (default p0 (last (p0 :: ps))) with (default p0 (last ps))
    by (rewrite last_cons; by destruct (last ps)).
  fold latest. destruct (is_function latest).
  - apply join_replicate_singleton.
  - apply join_replicate_nil.
Qed.

Lemma default_css_renders_pile_up_witness :
  TEDxSurvey.fire "onValueChanged"
    (TEDxSurvey.render_all (TEDxSurvey.mount Sample.channels Sample.with_f)
       [Sample.with_g; Sample.with_f; Sample.with_g])
    = [VFun 2; VFun 2; VFun 2; VFun 2].
Proof.
  apply (default_css_renders_pile_up Sample.channels Sample.with_f
           [Sample.with_g; Sample.with_f; Sample.with_g] "onValueChanged").
  - unfold builtin_channels. intros H. repeat (apply elem_of_cons in H as [[=]|H]).
    by apply elem_of_nil in H.
  - reflexivity.
  - repeat constructor; simpl;
      try (by intros []%elem_of_nil); apply list_elem_of_singleton; reflexivity.
Defined.

Section Restore.
Import TEDxSurvey.
Implicit Types (c : Component) (p : Props).

(** The cleanup on the two other built-in channels. *)
Lemma cleanup_css k c :
  survey (cleanup k c) !! "onUpdateQuestionCssClasses"
    = Some (remove_first (cl_css k)
              (default [] (survey c !! "onUpdateQuestionCssClasses"))).
Proof.
  unfold cleanup. destruct (truthy_str (cl_url k));
    rewrite !channel_remove_lookup_ne by done; by rewrite channel_remove_lookup_eq.
Qed.

Lemma cleanup_upload k c :
  survey (cleanup k c) !! "onUploadFiles"
    = if truthy_str (cl_url k)
      then Some (remove_first (cl_upload k) (default [] (survey c !! "onUploadFiles")))
      else survey c !! "onUploadFiles".
Proof.
  unfold cleanup. destruct (truthy_str (cl_url k)).
  - rewrite channel_remove_lookup_eq. by rewrite !channel_remove_lookup_ne.
  - by rewrite !channel_remove_lookup_ne.
Qed.

(** The three [add] calls of the binding effect, when no entry of the
    rest props names a channel. *)
Lemma bind_effect_builtins_only run css url c :
  (∀ b, b ∈ builtin_channels → is_Some (survey c !! b)) →
  (∀ n, n ∈ (otherCallbacksRef c).*1 → survey c !! n = None) →
  (bind_effect run css url c).1
    = channel_add "onComplete" (HComplete run)
        (if truthy_str url
         then channel_add "onUploadFiles" (HUploadFiles run url)
                (channel_add "onUpdateQuestionCssClasses" (HUpdateCss run css) c)
         else channel_add "onUpdateQuestionCssClasses" (HUpdateCss run css) c).
Proof.
  intros Hb Hnone. unfold bind_effect. cbn [fst].
  apply bind_callbacks_skip. intros e He.
  assert (otherCallbacksRef
            (channel_add "onComplete" (HComplete run)
               (if truthy_str url
                then channel_add "onUploadFiles" (HUploadFiles run url)
                       (channel_add "onUpdateQuestionCssClasses" (HUpdateCss run css) c)
                else channel_add "onUpdateQuestionCssClasses" (HUpdateCss run css) c))
          = otherCallbacksRef c) as Href
    by (simpl; by destruct (truthy_str url)).
  unfold Object_entries in He. rewrite Href in He.
  assert (e.1 ∈ (otherCallbacksRef c).*1) as Hk
    by (apply list_elem_of_fmap; eauto).
  pose proof (Hnone _ Hk) as Hn.
  assert (∀ b, b ∈ builtin_channels → b ≠ e.1) as Hne.
  { intros b Hbin ->. destruct (Hb _ Hbin) as [? Hsome]. congruence. }
  assert ("onUpdateQuestionCssClasses" ≠ e.1 ∧ "onUploadFiles" ≠ e.1
          ∧ "onComplete" ≠ e.1) as (H1 & H2 & H3).
  { unfold builtin_channels in Hne. repeat split; apply Hne;
      repeat (first [by left | right]). }
  rewrite channel_add_lookup_ne by done.
  destruct (truthy_str url); by rewrite !channel_add_lookup_ne.
Qed.

End Restore.

(** X16. The cleanup undoes the built-in subscriptions, all of them and
    only them.  On a form instance nobody has subscribed to, when no
    entry of the rest props names one of its channels, the unmount after
    the first render leaves every channel as it was, and the [remove]
    calls made are the [add] calls made, up to order. *)
Theorem unmount_restores_channels channels p :
  unsubscribed channels →
  (∀ b, b ∈ builtin_channels → is_Some (channels !! b)) →
  (∀ n, n ∈ (TEDxSurvey.otherCallbacks p).*1 → channels !! n = None) →
  let gone := TEDxSurvey.unmount (TEDxSurvey.mount channels p) in
  TEDxSurvey.survey gone = channels
  ∧ TEDxSurvey.add_calls gone ≡ₚ TEDxSurvey.remove_calls gone.
Proof.
  intros Hfresh Hb Hnone gone.
  assert (channels !! "onUpdateQuestionCssClasses" = Some []
          ∧ channels !! "onUploadFiles" = Some []
          ∧ channels !! "onComplete" = Some []) as (Hcss & Hup & Hco).
  { repeat split.
    - destruct (Hb "onUpdateQuestionCssClasses") as [l Hl]; [by left|].
      by rewrite Hl, (Hfresh _ _ Hl).
    - destruct (Hb "onUploadFiles") as [l Hl]; [right; by left|].
      by rewrite Hl, (Hfresh _ _ Hl).
    - destruct (Hb "onComplete") as [l Hl]; [right; right; by left|].
      by rewrite Hl, (Hfresh _ _ Hl). }
  destruct (mount_unfold channels p) as (Hs & Ha & Hr & _ & _ & Hk).
  rewrite bind_effect_builtins_only in Hs, Ha, Hr by done.
  destruct (unmount_unfold _ _ Hk) as (Hs' & Ha' & Hr').
  fold gone in Hs', Ha', Hr'. split.
  - rewrite Hs'. apply map_eq. intros n.
    destruct (decide (n = "onUpdateQuestionCssClasses")) as [->|N1].
    { rewrite cleanup_css, Hs, channel_add_lookup_ne by done. cbn [TEDxSurvey.cl_css].
      destruct (truthy_str (TEDxSurvey.uploadApiUrl p));
        rewrite ?channel_add_lookup_ne by done;
        rewrite channel_add_lookup_eq; cbn [TEDxSurvey.survey];
        rewrite Hcss; simpl; by rewrite decide_True. }
    destruct (decide (n = "onUploadFiles")) as [->|N2].
    { rewrite cleanup_upload, Hs, channel_add_lookup_ne by done.
      cbn [TEDxSurvey.cl_url TEDxSurvey.cl_upload].
      destruct (truthy_str (TEDxSurvey.uploadApiUrl p)).
      - rewrite channel_add_lookup_eq, channel_add_lookup_ne by done.
        cbn [TEDxSurvey.survey]. rewrite Hup. simpl. by rewrite decide_True.
      - by rewrite channel_add_lookup_ne. }
    destruct (decide (n = "onComplete")) as [->|N3].
    { rewrite cleanup_complete, Hs, channel_add_lookup_eq. cbn [TEDxSurvey.cl_complete].
      destruct (truthy_str (TEDxSurvey.uploadApiUrl p));
        rewrite !channel_add_lookup_ne by done; cbn [TEDxSurvey.survey];
        rewrite Hco; simpl; by rewrite ?decide_True. }
    rewrite cleanup_other, Hs.
    + rewrite channel_add_lookup_ne by done.
      destruct (truthy_str (TEDxSurvey.uploadApiUrl p));
        by rewrite !channel_add_lookup_ne.
    + unfold builtin_channels. intros H.
      repeat (apply elem_of_cons in H as [?|H]; [done|]). by apply elem_of_nil in H.
  - rewrite Ha', Hr', cleanup_remove_calls, Ha, Hr.
    cbn [TEDxSurvey.cl_url TEDxSurvey.cl_css TEDxSurvey.cl_complete TEDxSurvey.cl_upload].
    destruct (truthy_str (TEDxSurvey.uploadApiUrl p)); simpl; [|done].
    constructor. apply perm_swap.
Qed.

Lemma unmount_restores_channels_witness :
  TEDxSurvey.survey (TEDxSurvey.unmount (TEDxSurvey.mount Sample.channels Sample.plain))
    = Sample.channels.
Proof.
  apply (unmount_restores_channels Sample.channels Sample.plain).
  - intros n l Hl. unfold Sample.channels in Hl.
    repeat (apply lookup_insert_Some in Hl as [[_ <-]|[_ Hl]]; [done|]).
    by apply lookup_singleton_Some in Hl as [_ <-].
  - intros b Hb. unfold builtin_channels in Hb.
    repeat (apply elem_of_cons in Hb as [->|Hb]; [by eexists|]).
    by apply elem_of_nil in Hb.
  - intros n [->|[]%elem_of_nil]%elem_of_cons. reflexivity.
Defined.

Lemma handleSurveySubmission_connects_once_witness :
  connect_log (Server.handleSurveySubmission Sample.env Sample.bo Sample.both_checked
                 Sample.with_ann).2 = connect_log Sample.with_ann.
Proof.
  destruct (handleSurveySubmission_connects_once Sample.env Sample.bo
              Sample.both_checked Sample.with_ann) as (l & H1 & _ & _ & H2).
  rewrite H1, (H2 (ex_intro _ _ eq_refl)). apply app_nil_r.
Defined.

Lemma checkDuplicateEmail_reads_only_witness :
  (Server.checkDuplicateEmail Sample.env (VStr "a@x.com") (Some "mongodb://b/two")
     Sample.with_ann).2 = Sample.with_ann.
Proof.
  apply (checkDuplicateEmail_reads_only Sample.env (VStr "a@x.com")
           (Some "mongodb://b/two") Sample.with_ann).
  by eexists.
Defined.
